(** * CTA "L" ridership console: a shallow embedding of [main.py]

    The program is a command loop over a read-only SQLite database.  Every
    command runs one or more SQL queries and prints the rows; some commands
    ask follow-up questions on standard input and may draw a chart.

    The embedding keeps that shape:
    - the database is a record of tables, every table a list of rows;
    - each SQL statement of the source is one definition ([q_...]) built from
      a small set of relational operators ([like], [distinct_by], [group_by],
      [order_by]);
    - each Python function is a computation in a monad [M] that threads the
      remaining lines of standard input, collects what is printed, prompted
      and drawn, and propagates uncaught Python exceptions;
    - Python floats are IEEE binary64 numbers ([PrimFloat]); the three library
      functions the program calls on them ([math.cos], [math.radians],
      [round]) and the decimal-to-binary conversion of [float(...)] are
      parameters gathered in [pylib]. *)

From Stdlib Require Import String Ascii List Bool ZArith Lia.
From Stdlib Require Import Permutation Sorted.
From Stdlib Require Import Floats.
Import ListNotations.

Set Warnings "-inexact-float".

Local Open Scope string_scope.
Local Open Scope Z_scope.
Local Open Scope list_scope.

(* ================================================================== *)
(** ** Python strings (ASCII) *)

Definition is_upper (c : ascii) : bool :=
  let n := nat_of_ascii c in (65 <=? n)%nat && (n <=? 90)%nat.

Definition is_lower (c : ascii) : bool :=
  let n := nat_of_ascii c in (97 <=? n)%nat && (n <=? 122)%nat.

Definition is_digit (c : ascii) : bool :=
  let n := nat_of_ascii c in (48 <=? n)%nat && (n <=? 57)%nat.

(** [str.isspace] on the ASCII range: tab, LF, VT, FF, CR, FS..US, space. *)
Definition is_space (c : ascii) : bool :=
  let n := nat_of_ascii c in
  ((9 <=? n)%nat && (n <=? 13)%nat) || ((28 <=? n)%nat && (n <=? 32)%nat).

Definition lower_ascii (c : ascii) : ascii :=
  if is_upper c then ascii_of_nat (nat_of_ascii c + 32) else c.

Definition upper_ascii (c : ascii) : ascii :=
  if is_lower c then ascii_of_nat (nat_of_ascii c - 32) else c.

Definition chars (s : string) : list ascii := list_ascii_of_string s.

Definition text (l : list ascii) : string := string_of_list_ascii l.

(** [s.lower()] and [s.upper()]. *)
Definition lower (s : string) : string := text (map lower_ascii (chars s)).
Definition upper (s : string) : string := text (map upper_ascii (chars s)).

(** [s.title()]: a cased character is upper-cased when the previous character
    is not cased, and lower-cased otherwise. *)
Fixpoint title_from (prev_cased : bool) (l : list ascii) : list ascii :=
  match l with
  | [] => []
  | c :: l' =>
      if is_upper c || is_lower c
      then (if prev_cased then lower_ascii c else upper_ascii c)
             :: title_from true l'
      else c :: title_from false l'
  end.

Definition title (s : string) : string := text (title_from false (chars s)).

(** [s.strip()]. *)
Fixpoint lstrip (l : list ascii) : list ascii :=
  match l with
  | [] => []
  | c :: l' => if is_space c then lstrip l' else l
  end.

Definition strip_chars (l : list ascii) : list ascii :=
  rev (lstrip (rev (lstrip l))).

Definition strip (s : string) : string := text (strip_chars (chars s)).

(** The line break, ["\n"] in the source. *)
Definition LF : ascii := "010"%char.

(** Byte-wise order of strings: SQLite's BINARY collation and Python's [<=]. *)
Definition str_leb (a b : string) : bool := String.leb a b.

(* ================================================================== *)
(** ** Relational operators *)

(** SQLite [text LIKE pattern]: [%] matches any run of characters, [_] any
    single character, every other character itself up to ASCII case. *)
Fixpoint like_chars (p s : list ascii) : bool :=
  match p with
  | [] => match s with [] => true | _ :: _ => false end
  | c :: p' =>
      if Ascii.eqb c "%" then
        (fix any (s : list ascii) : bool :=
           like_chars p' s || match s with [] => false | _ :: s' => any s' end) s
      else if Ascii.eqb c "_" then
        match s with [] => false | _ :: s' => like_chars p' s' end
      else
        match s with
        | [] => false
        | d :: s' => Ascii.eqb (lower_ascii c) (lower_ascii d) && like_chars p' s'
        end
  end.

Definition like (pattern s : string) : bool := like_chars (chars pattern) (chars s).

(** [SELECT DISTINCT]: the first occurrence of every row is kept. *)
Fixpoint distinct_by {A : Type} (eqb : A -> A -> bool) (l : list A) : list A :=
  match l with
  | [] => []
  | a :: l' => a :: filter (fun b => negb (eqb a b)) (distinct_by eqb l')
  end.

(** [GROUP BY]: rows are collected per key, groups in order of first
    appearance, rows of a group in table order. *)
Fixpoint add_to_group {K R : Type} (eqb : K -> K -> bool) (k : K) (r : R)
    (gs : list (K * list R)) : list (K * list R) :=
  match gs with
  | [] => [(k, [r])]
  | (k', rs) :: gs' =>
      if eqb k k' then (k', rs ++ [r]) :: gs'
      else (k', rs) :: add_to_group eqb k r gs'
  end.

Definition group_by {K R : Type} (eqb : K -> K -> bool) (key : R -> K)
    (rows : list R) : list (K * list R) :=
  fold_left (fun gs r => add_to_group eqb (key r) r gs) rows [].

(** [ORDER BY]: a stable insertion sort; [leb a b] says that [a] may stand
    before [b].  SQL leaves the order of rows with equal keys open; the model
    keeps them in the order in which they were produced. *)
Fixpoint insert_by {A : Type} (leb : A -> A -> bool) (a : A) (l : list A) : list A :=
  match l with
  | [] => [a]
  | b :: l' => if leb a b then a :: l else b :: insert_by leb a l'
  end.

Fixpoint order_by {A : Type} (leb : A -> A -> bool) (l : list A) : list A :=
  match l with
  | [] => []
  | a :: l' => insert_by leb a (order_by leb l')
  end.

(** [sum(...)] over integers, SQL [SUM] and Python [sum] alike. *)
Definition zsum (l : list Z) : Z := fold_right Z.add 0 l.

(** [FROM a JOIN b ON on]: the pairs of rows that satisfy [on]. *)
Definition join {A B : Type} (on : A -> B -> bool) (la : list A) (lb : list B)
    : list (A * B) :=
  flat_map (fun a => map (fun b => (a, b)) (filter (on a) lb)) la.

(** Python slices [l[:k]] and [l[k:]]: a negative bound counts from the end
    and every bound is clamped to the list. *)
Definition py_index {A : Type} (l : list A) (k : Z) : nat :=
  let n := Z.of_nat (length l) in
  Z.to_nat (Z.min n (if k <? 0 then Z.max 0 (n + k) else k)).

Definition py_slice_to {A : Type} (l : list A) (k : Z) : list A :=
  firstn (py_index l k) l.

Definition py_slice_from {A : Type} (l : list A) (k : Z) : list A :=
  skipn (py_index l k) l.

(** [range(start, stop, step)] for a positive [step]. *)
Definition py_range (start stop step : Z) : list Z :=
  map (fun k => start + Z.of_nat k * step)
      (seq 0 (Z.to_nat ((stop - start + step - 1) / step))).

(** [max(l)] of a non-empty list. *)
Definition zmax (a : Z) (l : list Z) : Z := fold_left Z.max l a.

(* ================================================================== *)
(** ** Calendar dates *)

Record date := { year : Z; month : Z; day : Z }.

Definition digit_char (n : Z) : ascii := ascii_of_nat (48 + Z.to_nat (n mod 10)).

Definition pad2 (n : Z) : string := text [digit_char (n / 10); digit_char n].

Definition pad4 (n : Z) : string :=
  text [digit_char (n / 1000); digit_char (n / 100); digit_char (n / 10); digit_char n].

(** SQLite [strftime('%Y', d)], [strftime('%m', d)], [strftime('%Y-%m-%d', d)]. *)
Definition strftime_Y (d : date) : string := pad4 (year d).
Definition strftime_m (d : date) : string := pad2 (month d).
Definition strftime_Ymd (d : date) : string :=
  String.append (pad4 (year d))
    (String.append "-" (String.append (pad2 (month d)) (String.append "-" (pad2 (day d))))).

Definition is_leap (y : Z) : bool :=
  (y mod 4 =? 0) && (negb (y mod 100 =? 0) || (y mod 400 =? 0)).

Definition days_in_month (y m : Z) : Z :=
  if m =? 2 then (if is_leap y then 29 else 28)
  else if (m =? 4) || (m =? 6) || (m =? 9) || (m =? 11) then 30
  else 31.

Definition days_before_month (y m : Z) : Z :=
  zsum (map (fun k => days_in_month y (Z.of_nat k)) (seq 1 (Z.to_nat (m - 1)))).

Definition digit_val (c : ascii) : Z := Z.of_nat (nat_of_ascii c) - 48.

(** [datetime.strptime(s, '%Y-%m-%d')] on the ten-character texts that
    [strftime_Ymd] produces; [None] stands for the [ValueError] raised on any
    other text and on a date that does not exist. *)
Definition strptime_Ymd (s : string) : option date :=
  match chars s with
  | [y1; y2; y3; y4; h1; m1; m2; h2; d1; d2] =>
      if forallb is_digit [y1; y2; y3; y4; m1; m2; d1; d2]
         && Ascii.eqb h1 "-" && Ascii.eqb h2 "-"
      then
        let y := 1000 * digit_val y1 + 100 * digit_val y2 + 10 * digit_val y3 + digit_val y4 in
        let m := 10 * digit_val m1 + digit_val m2 in
        let d := 10 * digit_val d1 + digit_val d2 in
        if (1 <=? y) && (1 <=? m) && (m <=? 12) && (1 <=? d) && (d <=? days_in_month y m)
        then Some {| year := y; month := m; day := d |}
        else None
      else None
  | _ => None
  end.

(** [(date - datetime(date.year, 1, 1)).days + 1] *)
Definition day_of_year (d : date) : Z := days_before_month (year d) (month d) + day d.

(* ================================================================== *)
(** ** The database *)

Record Station := { Station_ID : Z; Station_Name : string }.

Record Stop := {
  Stop_ID : Z;
  Stop_Station_ID : Z;
  Stop_Name : string;
  Direction : string;
  ADA : Z;
  Latitude : float;
  Longitude : float }.

Record Line := { Line_ID : Z; Color : string }.

Record StopDetail := { SD_Stop_ID : Z; SD_Line_ID : Z }.

Record Ride := {
  Ride_Station_ID : Z;
  Ride_Date : date;
  Type_of_Day : string;
  Num_Riders : Z }.

Record database := {
  Stations : list Station;
  Stops : list Stop;
  Lines : list Line;
  StopDetails : list StopDetail;
  Ridership : list Ride }.

(** The invariants the data is expected to satisfy: keys are unique, every
    reference points to an existing row, rider counts are not negative. *)
Record well_formed (db : database) : Prop := {
  wf_station_ids : NoDup (map Station_ID (Stations db));
  wf_stop_ids : NoDup (map Stop_ID (Stops db));
  wf_line_ids : NoDup (map Line_ID (Lines db));
  wf_stop_station : forall s, In s (Stops db) ->
      In (Stop_Station_ID s) (map Station_ID (Stations db));
  wf_detail_stop : forall d, In d (StopDetails db) ->
      In (SD_Stop_ID d) (map Stop_ID (Stops db));
  wf_detail_line : forall d, In d (StopDetails db) ->
      In (SD_Line_ID d) (map Line_ID (Lines db));
  wf_ride_station : forall r, In r (Ridership db) ->
      In (Ride_Station_ID r) (map Station_ID (Stations db));
  wf_riders : forall r, In r (Ridership db) -> 0 <= Num_Riders r }.

(* ================================================================== *)
(** ** Python floats *)

(** The library functions the program applies to floats.  [py_strtod] is the
    correctly rounded value of a text that [float(...)] accepts. *)
Record pylib := {
  py_cos : float -> float;
  py_radians : float -> float;
  py_round : float -> Z -> float;
  py_strtod : string -> float }.

(** The blanks that [float(s)] skips around the value of an ASCII text: tab,
    LF, VT, FF, CR and space.  Unlike [str.strip] it does not skip FS..US. *)
Definition is_c_space (c : ascii) : bool :=
  let n := nat_of_ascii c in
  ((9 <=? n)%nat && (n <=? 13)%nat) || (n =? 32)%nat.

Fixpoint lstrip_c (l : list ascii) : list ascii :=
  match l with
  | [] => []
  | c :: l' => if is_c_space c then lstrip_c l' else l
  end.

Definition strip_c (l : list ascii) : list ascii :=
  rev (lstrip_c (rev (lstrip_c l))).

(** The grammar of [float(s)]:
    [digitpart ::= digit (["_"] digit)*],
    [number ::= [digitpart] "." digitpart | digitpart ["."]],
    [floatvalue ::= [sign] (number [("e"|"E") [sign] digitpart] | "inf" | "infinity" | "nan")],
    letters in any case, the blanks of [is_c_space] around the value ignored. *)
Fixpoint digits_tail (l : list ascii) : option (list ascii) :=
  match l with
  | [] => Some []
  | c :: l' =>
      if is_digit c then digits_tail l'
      else if Ascii.eqb c "_" then
        match l' with
        | d :: l'' => if is_digit d then digits_tail l'' else None
        | [] => None
        end
      else Some l
  end.

Definition digitpart (l : list ascii) : option (list ascii) :=
  match l with
  | c :: l' => if is_digit c then digits_tail l' else None
  | [] => None
  end.

Definition skip_sign (l : list ascii) : list ascii :=
  match l with
  | c :: l' => if Ascii.eqb c "+" || Ascii.eqb c "-" then l' else l
  | [] => []
  end.

Definition number (l : list ascii) : option (list ascii) :=
  match l with
  | c :: l' =>
      if Ascii.eqb c "." then digitpart l'
      else
        match digitpart l with
        | Some (c' :: r) =>
            if Ascii.eqb c' "." then
              match r with
              | d :: _ => if is_digit d then digitpart r else Some r
              | [] => Some []
              end
            else Some (c' :: r)
        | other => other
        end
  | [] => None
  end.

Definition exponent (l : list ascii) : option (list ascii) :=
  match l with
  | c :: l' => if Ascii.eqb (lower_ascii c) "e" then digitpart (skip_sign l') else Some l
  | [] => Some []
  end.

Definition is_float_literal (s : string) : bool :=
  let body := skip_sign (strip_c (chars s)) in
  let word := text (map lower_ascii body) in
  if String.eqb word "inf" || String.eqb word "infinity" || String.eqb word "nan"
  then true
  else
    match number body with
    | Some r => match exponent r with Some [] => true | _ => false end
    | None => false
    end.

(** [float(s)]: [None] stands for the [ValueError] of a text that is not a
    float literal. *)
Definition py_float (L : pylib) (s : string) : option float :=
  if is_float_literal s then Some (py_strtod L s) else None.

(** [a <= x <= b] on floats. *)
Definition between (a x b : float) : bool := PrimFloat.leb a x && PrimFloat.leb x b.

(** [a / b] on Python integers with [b <> 0]: the quotient of the two
    integers, rounded once to the nearest binary64 number, ties to even.  The
    integers enter as mantissas with exponent 0, and [SFdiv] is the IEEE
    division of the Standard Library.  The integers of the program come from
    SQLite and [len], so the quotient is within the range of the floats. *)
Definition int_to_SF (z : Z) : spec_float :=
  match z with
  | Z0 => S754_zero false
  | Zpos p => S754_finite false p 0
  | Zneg p => S754_finite true p 0
  end.

Definition py_truediv (a b : Z) : float :=
  SF2Prim (SFdiv prec emax (int_to_SF a) (int_to_SF b)).

(** [(count / total) * 100]: the product is the IEEE one, [100] being
    converted to [100.0]. *)
Definition percent (count total : Z) : float := (py_truediv count total * 100)%float.

(* ================================================================== *)
(** ** Output *)

(** A printed line.  Lines that show numbers keep them as numbers; the
    comment gives the f-string that renders them.  A percentage is the
    binary64 number that the program passes to the [.2f] format. *)
Inductive line :=
| Text (s : string)
| StatLine (label : string) (n : Z)                   (* "{label} {n:,}" *)
| DateRange (lo hi : string)                          (* "  date range: {lo} - {hi}" *)
| StationLine (id : Z) (name : string)                (* "{id} : {name}" *)
| DayTypeLine (day_string : string) (count : Z) (pct : float)
                                   (* "  {day_string} ridership: {count:,} ({pct:.2f}%)" *)
| TotalLine (total : Z)                               (* "  Total ridership: {total:,}" *)
| WeekdayLine (name : string) (count : Z) (pct : float) (* "{name} : {count:,} ({pct:.2f}%)" *)
| StopLine (stop_name direction ada_status : string)
                                   (* "{stop_name} : direction = {direction} {ada_status}" *)
| ColorLine (color direction : string) (num_stops : Z) (pct : float)
                                   (* "{color} going {direction} : {num_stops} ({pct:.2f}%)" *)
| YearLine (y : string) (total : Z)                   (* "{year} : {total:,}" *)
| MonthLine (m y : string) (total : Z)                (* "{month}/{year} : {total:,}" *)
| StationHeader (n : Z) (id : Z) (name : string)      (* "Station {n}: {id} {name}" *)
| DayLine (d : string) (riders : Z)                   (* "{date} {riders}" *)
| NearLine (name : string) (lat lon : float).         (* "{name} : ({lat}, {lon})" *)

(** One [plt.plot(xs, ys, label=...)] call. *)
Record series (X : Type) := { label : string; xs : list X; ys : list Z }.
Arguments label {X}.
Arguments xs {X}.
Arguments ys {X}.

(** The points a series draws: the i-th x with the i-th y. *)
Definition points {X : Type} (s : series X) : list (X * Z) := combine (xs s) (ys s).

(** A chart handed to matplotlib. *)
Inductive plot :=
| LinePlot (plot_title : string) (s : series string)
| DailyPlot (plot_title : string) (s1 s2 : series Z) (xticks : list Z)
| MapPlot (stations : list (string * float * float)).

Inductive event :=
| Prompt (s : string)      (* [input(s)] shows [s] *)
| Print (l : line)
| Show (p : plot).

(* ================================================================== *)
(** ** The monad of console programs *)

Inductive exn := ValueError | ZeroDivisionError | EOFError | AttributeError.

(** A run either returns a value together with the unread input and the
    events it produced, or stops with an uncaught exception. *)
Inductive res (A : Type) :=
| Ok (a : A) (stdin : list string) (out : list event)
| Raise (e : exn) (out : list event).
Arguments Ok {A}.
Arguments Raise {A}.

Definition M (A : Type) := list string -> res A.

Definition ret {A : Type} (a : A) : M A := fun i => Ok a i [].

Definition bind {A B : Type} (m : M A) (f : A -> M B) : M B :=
  fun i =>
    match m i with
    | Ok a i' o =>
        match f a i' with
        | Ok b i'' o' => Ok b i'' (o ++ o')
        | Raise e o' => Raise e (o ++ o')
        end
    | Raise e o => Raise e o
    end.

Notation "x <- m ;; k" := (bind m (fun x => k))
  (at level 61, m at next level, right associativity).
Notation "m ;; k" := (bind m (fun _ => k))
  (at level 61, right associativity).

Definition raise {A : Type} (e : exn) : M A := fun _ => Raise e [].

Definition print (l : line) : M unit := fun i => Ok tt i [Print l].

Definition show (p : plot) : M unit := fun i => Ok tt i [Show p].

(** [input(prompt)]: end of input raises [EOFError]. *)
Definition input (prompt : string) : M string :=
  fun i =>
    match i with
    | [] => Raise EOFError [Prompt prompt]
    | s :: i' => Ok s i' [Prompt prompt]
    end.

(** [for a in l: f(a)] *)
Fixpoint for_each {A : Type} (f : A -> M unit) (l : list A) : M unit :=
  match l with
  | [] => ret tt
  | a :: l' => f a ;; for_each f l'
  end.

(** [(count / total) * 100] on integers. *)
Definition percentage (count total : Z) : M float :=
  if total =? 0 then raise ZeroDivisionError
  else ret (percent count total).

(* ================================================================== *)
(** ** The commands *)

(** The texts handed to [print] and [input] are those of the source, their
    line breaks included: [String LF s] is the literal ["\n" + s]. *)

(** *** General statistics *)

Definition q_date_range (db : database) : list string :=
  order_by str_leb (map (fun r => strftime_Ymd (Ride_Date r)) (Ridership db)).

(** [min(Ride_Date)] of an empty table is [None], and [None.split] raises. *)
Definition print_stats (db : database) : M unit :=
  print (Text (String.append "** Welcome to CTA L analysis app **" (String LF ""))) ;;
  print (Text "General Statistics:") ;;
  print (StatLine "  # of stations:" (Z.of_nat (length (Stations db)))) ;;
  print (StatLine "  # of stops:" (Z.of_nat (length (Stops db)))) ;;
  print (StatLine "  # of ride entries:" (Z.of_nat (length (Ridership db)))) ;;
  match q_date_range db with
  | [] => raise AttributeError
  | lo :: rest =>
      print (DateRange lo (last rest lo)) ;;
      print (StatLine "  Total ridership:" (zsum (map Num_Riders (Ridership db))))
  end.

(** *** Command 1: stations by name pattern *)

(** SELECT Station_ID, Station_Name FROM Stations
    WHERE Station_Name LIKE ? ORDER BY Station_Name *)
Definition q_find_station_names (db : database) (partial_name : string)
    : list (Z * string) :=
  order_by (fun a b => str_leb (snd a) (snd b))
    (map (fun s => (Station_ID s, Station_Name s))
       (filter (fun s => like partial_name (Station_Name s)) (Stations db))).

Definition find_station_names (db : database) (partial_name : string) : M unit :=
  match q_find_station_names db partial_name with
  | [] => print (Text "**No stations found...")
  | stations => for_each (fun s => print (StationLine (fst s) (snd s))) stations
  end.

(** *** Command 2: share of every type of day at one station *)

(** Ridership JOIN Stations ON Ridership.Station_ID = Stations.Station_ID *)
Definition ridership_join (db : database) : list (Ride * Station) :=
  join (fun r s => Ride_Station_ID r =? Station_ID s) (Ridership db) (Stations db).

(** CASE WHEN Type_of_Day = 'W' THEN 1 WHEN Type_of_Day = 'A' THEN 2 ELSE 3 END *)
Definition day_priority (type_of_day : string) : Z :=
  if String.eqb type_of_day "W" then 1
  else if String.eqb type_of_day "A" then 2 else 3.

Definition riders (rows : list (Ride * Station)) : Z :=
  zsum (map (fun rs => Num_Riders (fst rs)) rows).

(** SELECT Type_of_Day, SUM(Num_Riders) FROM Ridership JOIN Stations ...
    WHERE Station_Name = ? GROUP BY Type_of_Day ORDER BY CASE ... END *)
Definition q_ridership_percentages (db : database) (station_name : string)
    : list (string * Z) :=
  order_by (fun a b => day_priority (fst a) <=? day_priority (fst b))
    (map (fun g => (fst g, riders (snd g)))
       (group_by String.eqb (fun rs => Type_of_Day (fst rs))
          (filter (fun rs => String.eqb (Station_Name (snd rs)) station_name)
             (ridership_join db)))).

Definition day_string (type_of_day : string) : string :=
  if String.eqb type_of_day "W" then "Weekday"
  else if String.eqb type_of_day "A" then "Saturday" else "Sunday/holiday".

Definition ridership_percentages (db : database) (station_name : string) : M unit :=
  match q_ridership_percentages db station_name with
  | [] => print (Text "**No data found...")
  | results =>
      let total_ridership := zsum (map snd results) in
      print (Text (String.append "Percentage of ridership for the "
                     (String.append station_name " station:"))) ;;
      for_each (fun row =>
                  pct <- percentage (snd row) total_ridership ;;
                  print (DayTypeLine (day_string (fst row)) (snd row) pct))
               results ;;
      print (TotalLine total_ridership)
  end.

(** *** Command 3: weekday ridership of every station *)

Definition first_station_name (rows : list (Ride * Station)) : string :=
  match rows with
  | rs :: _ => Station_Name (snd rs)
  | [] => ""
  end.

(** SELECT Station_Name, SUM(Num_Riders) as Total_Riders FROM Ridership JOIN Stations ...
    WHERE Type_of_Day = 'W' GROUP BY Stations.Station_ID ORDER BY Total_Riders DESC *)
Definition weekday_groups (db : database) : list (string * Z) :=
  map (fun g => (first_station_name (snd g), riders (snd g)))
    (group_by Z.eqb (fun rs => Station_ID (snd rs))
       (filter (fun rs => String.eqb (Type_of_Day (fst rs)) "W") (ridership_join db))).

Definition q_total_weekday_ridership (db : database) : list (string * Z) :=
  order_by (fun a b => snd b <=? snd a) (weekday_groups db).

Definition total_weekday_ridership (db : database) : M unit :=
  let results := q_total_weekday_ridership db in
  let total_ridership := zsum (map snd results) in
  print (Text "Ridership on Weekdays for Each Station") ;;
  for_each (fun row =>
              pct <- percentage (snd row) total_ridership ;;
              print (WeekdayLine (fst row) (snd row) pct))
           results.

(** *** Command 4: stops of a line in one direction *)

(** SELECT Line_ID FROM Lines WHERE Color = ? *)
Definition q_line_ids (db : database) (line_color : string) : list Z :=
  map Line_ID (filter (fun l => String.eqb (Color l) line_color) (Lines db)).

(** Stops JOIN StopDetails ON Stops.Stop_ID = StopDetails.Stop_ID
          JOIN Lines ON StopDetails.Line_ID = Lines.Line_ID *)
Definition stop_join (db : database) : list (Stop * StopDetail * Line) :=
  join (fun sd l => SD_Line_ID (snd sd) =? Line_ID l)
    (join (fun s d => Stop_ID s =? SD_Stop_ID d) (Stops db) (StopDetails db))
    (Lines db).

Definition the_stop (row : Stop * StopDetail * Line) : Stop := fst (fst row).
Definition the_line (row : Stop * StopDetail * Line) : Line := snd row.

(** SELECT DISTINCT Direction FROM Stops JOIN ... WHERE Color = ? *)
Definition q_directions (db : database) (line_color : string) : list string :=
  distinct_by String.eqb
    (map (fun row => Direction (the_stop row))
       (filter (fun row => String.eqb (Color (the_line row)) line_color) (stop_join db))).

(** SELECT Stop_Name, Direction, ADA FROM Stops JOIN ...
    WHERE Color = ? AND Direction = ? ORDER BY Stop_Name *)
Definition q_stops (db : database) (line_color direction : string)
    : list (string * string * Z) :=
  order_by (fun a b => str_leb (fst (fst a)) (fst (fst b)))
    (map (fun row => (Stop_Name (the_stop row), Direction (the_stop row), ADA (the_stop row)))
       (filter (fun row => String.eqb (Color (the_line row)) line_color
                           && String.eqb (Direction (the_stop row)) direction)
          (stop_join db))).

Definition ada_status (ada : Z) : string :=
  if ada =? 0 then "(not handicap accessible)" else "(handicap accessible)".

Definition list_stops_by_line_and_direction (db : database) (line_color : string)
    : M unit :=
  let line_color := title line_color in
  match q_line_ids db line_color with
  | [] => print (Text "**No such line...")
  | _ :: _ =>
      answer <- input "Enter a direction (N/S/W/E): " ;;
      let direction := upper answer in
      let valid_directions := q_directions db line_color in
      if negb (existsb (String.eqb direction) valid_directions)
      then print (Text "**That line does not run in the direction chosen...")
      else
        match q_stops db line_color direction with
        | [] => print (Text "No stops found for this line and direction.")
        | results =>
            for_each (fun row =>
                        print (StopLine (fst (fst row)) direction (ada_status (snd row))))
                     results
        end
  end.

(** *** Command 5: number of stops per line colour and direction *)

Definition pair_eqb (a b : string * string) : bool :=
  String.eqb (fst a) (fst b) && String.eqb (snd a) (snd b).

(** Lines.Color ASC, Stops.Direction ASC *)
Definition pair_leb (a b : string * string) : bool :=
  if String.eqb (fst a) (fst b) then str_leb (snd a) (snd b) else str_leb (fst a) (fst b).

(** SELECT Lines.Color, Stops.Direction, COUNT( * ) as Num_Stops FROM Stops JOIN ...
    GROUP BY Lines.Color, Stops.Direction ORDER BY Lines.Color ASC, Stops.Direction ASC *)
Definition q_stops_by_color_direction (db : database) : list (string * string * Z) :=
  order_by (fun a b => pair_leb (fst a) (fst b))
    (map (fun g => (fst g, Z.of_nat (length (snd g))))
       (group_by pair_eqb (fun row => (Color (the_line row), Direction (the_stop row)))
          (stop_join db))).

Definition stops_for_each_color_by_direction (db : database) : M unit :=
  let total_stops := Z.of_nat (length (Stops db)) in
  let results := q_stops_by_color_direction db in
  print (Text "Number of Stops For Each Color By Direction") ;;
  for_each (fun row =>
              pct <- percentage (snd row) total_stops ;;
              print (ColorLine (fst (fst row)) (snd (fst row)) (snd row) pct))
           results.

(** *** Commands 6 and 7: ridership of one station per year and per month *)

(** SELECT DISTINCT Station_Name FROM Stations WHERE Station_Name LIKE ? *)
Definition q_station_names_like (db : database) (station_name : string) : list string :=
  distinct_by String.eqb
    (map Station_Name (filter (fun s => like station_name (Station_Name s)) (Stations db))).

(** SELECT strftime('%Y', Ride_Date) as Year, SUM(Num_Riders) as Total_Riders
    FROM Ridership JOIN Stations ... WHERE Station_Name = ? GROUP BY Year ORDER BY Year *)
Definition q_yearly_ridership (db : database) (name : string) : list (string * Z) :=
  order_by (fun a b => str_leb (fst a) (fst b))
    (map (fun g => (fst g, riders (snd g)))
       (group_by String.eqb (fun rs => strftime_Y (Ride_Date (fst rs)))
          (filter (fun rs => String.eqb (Station_Name (snd rs)) name) (ridership_join db)))).

(** SELECT strftime('%m', Ride_Date) as Month, SUM(Num_Riders) as Total_Riders
    FROM Ridership JOIN Stations ...
    WHERE Station_Name = ? AND strftime('%Y', Ride_Date) = ? GROUP BY Month ORDER BY Month *)
Definition q_monthly_ridership (db : database) (name y : string) : list (string * Z) :=
  order_by (fun a b => str_leb (fst a) (fst b))
    (map (fun g => (fst g, riders (snd g)))
       (group_by String.eqb (fun rs => strftime_m (Ride_Date (fst rs)))
          (filter (fun rs => String.eqb (Station_Name (snd rs)) name
                             && String.eqb (strftime_Y (Ride_Date (fst rs))) y)
             (ridership_join db)))).

(** The part of [yearly_ridership] after the station has been found. *)
Definition yearly_report (db : database) (name : string) : M unit :=
  let results := q_yearly_ridership db name in
  print (Text (String.append "Yearly Ridership at " name)) ;;
  for_each (fun row => print (YearLine (fst row) (snd row))) results ;;
  plot_input <- input (String LF "Plot? (y/n) ") ;;
  if String.eqb (lower plot_input) "y"
  then show (LinePlot (String.append "Yearly Ridership at " (String.append name " Station"))
               {| label := ""; xs := map fst results; ys := map snd results |})
  else ret tt.

Definition yearly_ridership (db : database) (station_name : string) : M unit :=
  match q_station_names_like db station_name with
  | [] => print (Text "**No station found...")
  | [name] => yearly_report db name
  | _ :: _ :: _ => print (Text "**Multiple stations found...")
  end.

(** The part of [monthly_ridership] after the station has been found. *)
Definition monthly_report (db : database) (name : string) : M unit :=
  y <- input "Enter a year: " ;;
  let results := q_monthly_ridership db name y in
  print (Text (String.append "Monthly Ridership at "
                 (String.append name (String.append " for " y)))) ;;
  for_each (fun row => print (MonthLine (fst row) y (snd row))) results ;;
  plot_input <- input (String LF "Plot? (y/n) ") ;;
  if String.eqb (lower plot_input) "y"
  then show (LinePlot (String.append "Monthly Ridership at "
                         (String.append name (String.append " Station ("
                            (String.append y ")"))))
               {| label := ""; xs := map fst results; ys := map snd results |})
  else ret tt.

Definition monthly_ridership (db : database) (station_name : string) : M unit :=
  match q_station_names_like db station_name with
  | [] => print (Text "**No station found...")
  | [name] => monthly_report db name
  | _ :: _ :: _ => print (Text "**Multiple stations found...")
  end.

(** *** Command 8: daily ridership of two stations in one year *)

(** SELECT Station_ID, Station_Name FROM Stations WHERE Station_Name LIKE ?
    with the parameter ['%' + station_name + '%'] *)
Definition q_stations_containing (db : database) (station_name : string)
    : list (Z * string) :=
  map (fun s => (Station_ID s, Station_Name s))
    (filter (fun s => like (String.append "%" (String.append station_name "%"))
                        (Station_Name s))
       (Stations db)).

(** SELECT strftime('%Y-%m-%d', Ride_Date) as Date, SUM(Num_Riders) as Total_Riders
    FROM Ridership WHERE Station_ID = ? AND strftime('%Y', Ride_Date) = ?
    GROUP BY Date ORDER BY Date *)
Definition q_daily_ridership (db : database) (station_id : Z) (y : string)
    : list (string * Z) :=
  order_by (fun a b => str_leb (fst a) (fst b))
    (map (fun g => (fst g, zsum (map Num_Riders (snd g))))
       (group_by String.eqb (fun r => strftime_Ymd (Ride_Date r))
          (filter (fun r => (Ride_Station_ID r =? station_id)
                            && String.eqb (strftime_Y (Ride_Date r)) y)
             (Ridership db)))).

(** The nested function [fetch_daily_ridership].  The result [None] stands
    for the triple of [None]s returned together with [flag = 1]. *)
Definition fetch_daily_ridership (db : database) (y station_name : string)
    : M (option (Z * string * list (string * Z))) :=
  match q_stations_containing db station_name with
  | [] => print (Text "**No station found...") ;; ret None
  | [(station_id, exact_station_name)] =>
      ret (Some (station_id, exact_station_name, q_daily_ridership db station_id y))
  | _ :: _ :: _ => print (Text "**Multiple stations found...") ;; ret None
  end.

(** [data[:5] + data[-5:]] *)
Definition first_and_last_five {A : Type} (data : list A) : list A :=
  py_slice_to data 5 ++ py_slice_from data (-5).

(** [[datetime.strptime(row[0], '%Y-%m-%d') for row in data]] followed by the
    day of the year of every date. *)
Fixpoint days_of (data : list (string * Z)) : M (list Z) :=
  match data with
  | [] => ret []
  | row :: data' =>
      match strptime_Ymd (fst row) with
      | None => raise ValueError
      | Some d => ds <- days_of data' ;; ret (day_of_year d :: ds)
      end
  end.

(** The chart of the comparison.  [plt.plot(x, y)] raises [ValueError] when
    [x] and [y] differ in length, and so does [max] of an empty list. *)
Definition daily_plot (y station1_name station2_name : string)
    (station1_data station2_data : list (string * Z)) : M unit :=
  days <- days_of station1_data ;;
  let ridership1 := map snd station1_data in
  let ridership2 := map snd station2_data in
  if negb (length days =? length ridership2)%nat then raise ValueError
  else
    match days with
    | [] => raise ValueError
    | d :: ds =>
        show (DailyPlot (String.append "Ridership Each Day of " y)
                {| label := station1_name; xs := days; ys := ridership1 |}
                {| label := station2_name; xs := days; ys := ridership2 |}
                (py_range 0 (zmax d ds + 1) 50))
    end.

Definition daily_ridership_comparison (db : database) (y : string) : M unit :=
  station1 <- input (String LF "Enter station 1 (wildcards _ and %): ") ;;
  r1 <- fetch_daily_ridership db y station1 ;;
  match r1 with
  | None => ret tt
  | Some (station1_id, station1_name, station1_data) =>
      station2 <- input (String LF "Enter station 2 (wildcards _ and %): ") ;;
      r2 <- fetch_daily_ridership db y station2 ;;
      match r2 with
      | None => ret tt
      | Some (station2_id, station2_name, station2_data) =>
          print (StationHeader 1 station1_id station1_name) ;;
          for_each (fun row => print (DayLine (fst row) (snd row)))
                   (first_and_last_five station1_data) ;;
          print (StationHeader 2 station2_id station2_name) ;;
          for_each (fun row => print (DayLine (fst row) (snd row)))
                   (first_and_last_five station2_data) ;;
          plot_input <- input (String LF "Plot? (y/n) ") ;;
          if String.eqb (lower plot_input) "y"
          then daily_plot y station1_name station2_name station1_data station2_data
          else ret tt
      end
  end.

(** *** Command 9: stations within a mile *)

Definition triple_eqb (a b : string * float * float) : bool :=
  String.eqb (fst (fst a)) (fst (fst b))
  && PrimFloat.eqb (snd (fst a)) (snd (fst b))
  && PrimFloat.eqb (snd a) (snd b).

(** SELECT DISTINCT Stations.Station_Name, Stops.Latitude, Stops.Longitude
    FROM Stops JOIN Stations ON Stops.Station_ID = Stations.Station_ID
    WHERE Stops.Latitude BETWEEN ? AND ? AND Stops.Longitude BETWEEN ? AND ? *)
Definition q_stations_within (db : database) (lat_lower lat_upper lon_left lon_right : float)
    : list (string * float * float) :=
  distinct_by triple_eqb
    (map (fun ss => (Station_Name (snd ss), Latitude (fst ss), Longitude (fst ss)))
       (filter (fun ss => between lat_lower (Latitude (fst ss)) lat_upper
                          && between lon_left (Longitude (fst ss)) lon_right)
          (join (fun s st => Stop_Station_ID s =? Station_ID st) (Stops db) (Stations db)))).

(** The four bounds handed to the query, in the order
    [(lat_lower, lat_upper, lon_left, lon_right)]. *)
Definition mile_box (L : pylib) (latitude longitude : float)
    : float * float * float * float :=
  let mile_in_degrees_lat := (1 / 69)%float in
  let mile_in_degrees_lon := (1 / (py_cos L (py_radians L latitude) * 69.17))%float in
  let lat_upper := (latitude + mile_in_degrees_lat)%float in
  let lat_lower := (latitude - mile_in_degrees_lat)%float in
  let lon_left := (longitude - mile_in_degrees_lon)%float in
  let lon_right := (longitude + mile_in_degrees_lon)%float in
  let lat_upper := py_round L (lat_upper + 0.000)%float 3 in
  let lat_lower := py_round L (lat_lower - 0.000)%float 3 in
  let lon_left := py_round L (lon_left - 0.0001)%float 3 in
  let lon_right := py_round L (lon_right + 0.0001)%float 3 in
  (lat_lower, lat_upper, lon_left, lon_right).

Definition stations_within_mile (L : pylib) (db : database) (latitude : float) : M unit :=
  if negb (between 40 latitude 43)
  then print (Text "**Latitude entered is out of bounds...")
  else
    answer <- input "Enter a longitude: " ;;
    match py_float L answer with
    | None => raise ValueError
    | Some longitude =>
        if negb (between (-88) longitude (-87))
        then print (Text "**Longitude entered is out of bounds...")
        else
          let '(lat_lower, lat_upper, lon_left, lon_right) := mile_box L latitude longitude in
          let results := q_stations_within db lat_lower lat_upper lon_left lon_right in
          let sorted_results :=
            order_by (fun a b => str_leb (fst (fst a)) (fst (fst b))) results in
          match sorted_results with
          | [] => print (Text "**No stations found...")
          | _ :: _ =>
              print (Text (String LF "List of Stations Within a Mile")) ;;
              for_each (fun row => print (NearLine (fst (fst row)) (snd (fst row)) (snd row)))
                       sorted_results ;;
              plot_input <- input (String LF "Plot? (y/n) ") ;;
              if String.eqb (lower plot_input) "y"
              then show (MapPlot results)
              else ret tt
          end
    end.

(* ================================================================== *)
(** ** The command loop *)

Inductive control := Continue | Break.

(** One round of [while True] in [main]. *)
Definition command_round (L : pylib) (db : database) : M control :=
  command <- input (String LF "Please enter a command (1-9, x to exit): ") ;;
  if String.eqb (lower command) "x" then ret Break
  else
    (if String.eqb command "1" then
       partial_station_name <- input (String LF "Enter partial station name (wildcards _ and %): ") ;;
       find_station_names db partial_station_name
     else if String.eqb command "2" then
       station_name <- input (String LF "Enter the name of the station you would like to analyze: ") ;;
       ridership_percentages db station_name
     else if String.eqb command "3" then
       total_weekday_ridership db
     else if String.eqb command "4" then
       answer <- input (String LF "Enter a line color (e.g. Red or Yellow): ") ;;
       list_stops_by_line_and_direction db (title (strip answer))
     else if String.eqb command "5" then
       stops_for_each_color_by_direction db
     else if String.eqb command "6" then
       station_name <- input (String LF "Enter a station name (wildcards _ and %): ") ;;
       yearly_ridership db station_name
     else if String.eqb command "7" then
       station_name <- input (String LF "Enter a station name (wildcards _ and %): ") ;;
       monthly_ridership db station_name
     else if String.eqb command "8" then
       y <- input (String LF "Year to compare against? ") ;;
       daily_ridership_comparison db y
     else if String.eqb command "9" then
       answer <- input (String LF "Enter a latitude: ") ;;
       match py_float L answer with
       | None => raise ValueError
       | Some lat => stations_within_mile L db lat
       end
     else print (Text "**Error, unknown command, try again...")) ;;
    ret Continue.

(** How the process ends: [main] returns after the command [x], or an
    exception leaves [main] and the interpreter stops. *)
Inductive ending :=
| Exited (out : list event)
| Crashed (e : exn) (out : list event).

Definition after (o : list event) (e : ending) : ending :=
  match e with
  | Exited out => Exited (o ++ out)
  | Crashed x out => Crashed x (o ++ out)
  end.

(** The loop, unrolled at most [fuel] times; [None] when the bound is hit. *)
Fixpoint command_loop (fuel : nat) (L : pylib) (db : database) (stdin : list string)
    : option ending :=
  match fuel with
  | O => None
  | S fuel' =>
      match command_round L db stdin with
      | Raise e o => Some (Crashed e o)
      | Ok Break _ o => Some (Exited o)
      | Ok Continue stdin' o => option_map (after o) (command_loop fuel' L db stdin')
      end
  end.

(** [main()]: every round reads at least one line and the loop ends at the
    latest when the input does, so one round more than there are lines is
    enough. *)
Definition main (L : pylib) (db : database) (stdin : list string) : option ending :=
  match print_stats db stdin with
  | Raise e o => Some (Crashed e o)
  | Ok _ stdin' o => option_map (after o) (command_loop (S (length stdin')) L db stdin')
  end.

(* ================================================================== *)
(** ** Vocabulary of the statements *)

(** What [GROUP BY] promises about the groups [gs] of the rows [rows]: every
    key heads one group, every row is in the group of its key, and no group
    is empty. *)
Record grouped {K R : Type} (eqb : K -> K -> bool) (key : R -> K) (rows : list R)
    (gs : list (K * list R)) : Prop := {
  grouped_keys : NoDup (map fst gs);
  grouped_all : forall r, In r rows -> In (key r) (map fst gs);
  grouped_rows : Permutation (concat (map snd gs)) rows;
  grouped_same : forall k rs, In (k, rs) gs ->
      rs = filter (fun r => eqb (key r) k) rows /\ rs <> [] }.

(** Rows in ascending order of their first column, a text. *)
Definition by_text {V : Type} (a b : string * V) : Prop := str_leb (fst a) (fst b) = true.

(** A run with the events [o] in front of it. *)
Definition prefixed {A : Type} (o : list event) (r : res A) : res A :=
  match r with
  | Ok a i o' => Ok a i (o ++ o')
  | Raise e o' => Raise e (o ++ o')
  end.

(** What a run printed, prompted and drew. *)
Definition events {A : Type} (r : res A) : list event :=
  match r with
  | Ok _ _ o => o
  | Raise _ o => o
  end.






(** The failures a command reports and goes on from. *)
Inductive failure := NotFound | Ambiguous | OutOfRange | InvalidSelector.

Definition failure_messages : list (string * failure) :=
  [ ("**No stations found...", NotFound);
    ("**No data found...", NotFound);
    ("**No station found...", NotFound);
    ("**Multiple stations found...", Ambiguous);
    ("**Latitude entered is out of bounds...", OutOfRange);
    ("**Longitude entered is out of bounds...", OutOfRange);
    ("**No such line...", InvalidSelector);
    ("**That line does not run in the direction chosen...", InvalidSelector);
    ("**Error, unknown command, try again...", InvalidSelector) ].

(** The failure a printed line reports, if any. *)
Definition report_of (l : line) : option failure :=
  match l with
  | Text s => option_map snd (find (fun m => String.eqb (fst m) s) failure_messages)
  | _ => None
  end.

(** Events that report no failure. *)
Definition quiet (o : list event) : Prop :=
  forall l, In (Print l) o -> report_of l = None.

(** A program that reports no failure, however it ends. *)
Definition silent {A : Type} (m : M A) : Prop := forall i, quiet (events (m i)).

(** A program that never raises after it has reported a failure. *)
Definition tidy {A : Type} (m : M A) : Prop :=
  forall i, (exists a i' o, m i = Ok a i' o) \/ quiet (events (m i)).

(** A program that only consumes input. *)
Definition reads_forward {A : Type} (m : M A) : Prop :=
  forall i a i' o, m i = Ok a i' o -> (length i' <= length i)%nat.






(** A date of the calendar with a four-digit year. *)
Definition valid_date (d : date) : Prop :=
  1 <= year d <= 9999 /\ 1 <= month d <= 12 /\ 1 <= day d <= days_in_month (year d) (month d).

(** A database whose ridership entries all carry such a date. *)
Definition well_dated (db : database) : Prop :=
  forall r, In r (Ridership db) -> valid_date (Ride_Date r).

(** A program that reads its input in order: what it leaves unread is a
    tail of what it was given. *)
Definition reads_in_order {A : Type} (m : M A) : Prop :=
  forall i a i' o, m i = Ok a i' o -> exists read, i = read ++ i'.

(** The row of a daily series is dated [n] when its text is that of a date
    of the calendar whose day of the year is [n]. *)
Definition dated (row : string * Z) (n : Z) : Prop :=
  exists d, valid_date d /\ fst row = strftime_Ymd d /\ n = day_of_year d.


(* ================================================================== *)
(** ** Sample databases *)


Definition ride (station_id y m d : Z) (type_of_day : string) (n : Z) : Ride :=
  {| Ride_Station_ID := station_id;
     Ride_Date := {| year := y; month := m; day := d |};
     Type_of_Day := type_of_day;
     Num_Riders := n |}.

(** One station with entries for the first seven days of 2020. *)
Definition week_db : database := {|
  Stations := [ {| Station_ID := 40420; Station_Name := "Cicero-Cermak" |} ];
  Stops := [];
  Lines := [];
  StopDetails := [];
  Ridership := map (fun d => ride 40420 2020 1 d "W" (100 + d)) [1; 2; 3; 4; 5; 6; 7] |}.

(** A station whose only entry counts no rider. *)
Definition idle_db : database := {|
  Stations := [ {| Station_ID := 40140; Station_Name := "Dempster-Skokie" |} ];
  Stops := [];
  Lines := [];
  StopDetails := [];
  Ridership := [ ride 40140 2020 4 12 "U" 0 ] |}.

(** Two stations with two days each, one day apart, and a third station with
    a single day. *)
Definition shifted_db : database := {|
  Stations := [ {| Station_ID := 41240; Station_Name := "Addison-Blue" |};
                {| Station_ID := 40060; Station_Name := "Belmont-Blue" |};
                {| Station_ID := 40630; Station_Name := "Clark/Division" |} ];
  Stops := [];
  Lines := [];
  StopDetails := [];
  Ridership := [ ride 41240 2020 1 1 "W" 100; ride 41240 2020 1 2 "W" 200;
                 ride 40060 2020 1 2 "W" 300; ride 40060 2020 1 3 "W" 400;
                 ride 40630 2020 1 1 "W" 500 ] |}.


(** One station with entries for the first twelve days of 2020. *)
Definition fortnight_db : database := {|
  Stations := [ {| Station_ID := 40420; Station_Name := "Cicero-Cermak" |} ];
  Stops := [];
  Lines := [];
  StopDetails := [];
  Ridership := map (fun d => ride 40420 2020 1 d "W" (100 + d))
                   [1; 2; 3; 4; 5; 6; 7; 8; 9; 10; 11; 12] |}.

(** A station whose whole name is part of another station's name. *)
Definition main_db : database := {|
  Stations := [ {| Station_ID := 40270; Station_Name := "Main" |};
                {| Station_ID := 41320; Station_Name := "Belmont-North Main" |} ];
  Stops := [];
  Lines := [];
  StopDetails := [];
  Ridership := [ ride 40270 2020 1 6 "W" 70; ride 41320 2020 1 6 "W" 90 ] |}.

(** A stop at the point (41.85, -87.65). *)
Definition point_db : database := {|
  Stations := [ {| Station_ID := 40850; Station_Name := "Halsted-Orange" |} ];
  Stops := [ {| Stop_ID := 30165; Stop_Station_ID := 40850;
                Stop_Name := "Halsted (Loop-bound)"; Direction := "N"; ADA := 1;
                Latitude := 41.85; Longitude := (-87.65) |} ];
  Lines := [ {| Line_ID := 5; Color := "Orange" |} ];
  StopDetails := [ {| SD_Stop_ID := 30165; SD_Line_ID := 5 |} ];
  Ridership := [] |}.

(* ================================================================== *)
(** * Properties *)

(** ** Lists, sorting and grouping *)

Section Ordering.
Context {A : Type} (leb : A -> A -> bool).

Lemma insert_by_perm (a : A) (l : list A) :
  Permutation (a :: l) (insert_by leb a l).
Proof.
  induction l as [|b l IH]; simpl; [reflexivity|].
  destruct (leb a b); [reflexivity|].
  rewrite perm_swap. now apply perm_skip.
Qed.

Lemma order_by_perm (l : list A) : Permutation l (order_by leb l).
Proof.
  induction l as [|a l IH]; simpl; [constructor|].
  rewrite <- insert_by_perm. now apply perm_skip.
Qed.

Lemma order_by_in (x : A) (l : list A) : In x (order_by leb l) <-> In x l.
Proof.
  split; apply Permutation_in; [symmetry|]; apply order_by_perm.
Qed.

Lemma order_by_length (l : list A) : length (order_by leb l) = length l.
Proof. symmetry. apply Permutation_length, order_by_perm. Qed.

Lemma order_by_nil (l : list A) : order_by leb l = [] -> l = [].
Proof.
  intros H. apply length_zero_iff_nil.
  rewrite <- order_by_length, H. reflexivity.
Qed.

Hypothesis leb_total : forall a b, leb a b = true \/ leb b a = true.
Hypothesis leb_trans : forall a b c, leb a b = true -> leb b c = true -> leb a c = true.

Let le (a b : A) : Prop := leb a b = true.

Lemma insert_by_sorted (a : A) (l : list A) :
  StronglySorted le l -> StronglySorted le (insert_by leb a l).
Proof.
  induction 1 as [|b l Hl IH Hb]; simpl.
  - repeat constructor.
  - destruct (leb a b) eqn:Hab.
    + constructor; [now constructor|].
      constructor; [exact Hab|].
      eapply Forall_impl; [|exact Hb]. intros c Hc. now apply leb_trans with b.
    + constructor; [exact IH|].
      eapply Permutation_Forall; [apply insert_by_perm|].
      constructor; [|exact Hb].
      destruct (leb_total a b) as [H|H]; [congruence|exact H].
Qed.

Lemma order_by_sorted (l : list A) : StronglySorted le (order_by leb l).
Proof.
  induction l as [|a l IH]; simpl; [constructor|now apply insert_by_sorted].
Qed.
End Ordering.

Section Grouping.
Context {K R : Type} (eqb : K -> K -> bool) (key : R -> K).
Hypothesis eqb_eq : forall a b, eqb a b = true <-> a = b.

Let same (k : K) (r : R) : bool := eqb (key r) k.

Lemma eqb_refl_true (k : K) : eqb k k = true.
Proof. now apply eqb_eq. Qed.

Lemma add_to_group_keys (k : K) (r : R) (gs : list (K * list R)) (k' : K) :
  In k' (map fst (add_to_group eqb k r gs)) <-> k' = k \/ In k' (map fst gs).
Proof.
  induction gs as [|[k0 rs] gs IH]; simpl.
  - intuition.
  - destruct (eqb k k0) eqn:E; simpl.
    + apply eqb_eq in E. subst. intuition.
    + rewrite IH. intuition.
Qed.

Lemma add_to_group_nodup (k : K) (r : R) (gs : list (K * list R)) :
  NoDup (map fst gs) -> NoDup (map fst (add_to_group eqb k r gs)).
Proof.
  induction gs as [|[k0 rs] gs IH]; simpl; intros H.
  - repeat constructor. intros [].
  - inversion H as [|? ? Hn Hd]; subst.
    destruct (eqb k k0) eqn:E; simpl; [now constructor|].
    constructor; [|now apply IH].
    rewrite add_to_group_keys. intros [->|Hin]; [|contradiction].
    rewrite eqb_refl_true in E. discriminate.
Qed.

Lemma add_to_group_rows (k : K) (r : R) (gs : list (K * list R)) :
  Permutation (concat (map snd (add_to_group eqb k r gs)))
              (concat (map snd gs) ++ [r]).
Proof.
  induction gs as [|[k0 rs] gs IH]; simpl; [reflexivity|].
  destruct (eqb k k0); simpl.
  - rewrite <- !app_assoc. apply Permutation_app_head, Permutation_app_comm.
  - rewrite IH, app_assoc. reflexivity.
Qed.

Lemma add_to_group_same (rows : list R) (r : R) (gs : list (K * list R)) :
  NoDup (map fst gs) ->
  (forall k rs, In (k, rs) gs -> rs = filter (same k) rows /\ rs <> []) ->
  (~ In (key r) (map fst gs) -> filter (same (key r)) rows = []) ->
  forall k rs, In (k, rs) (add_to_group eqb (key r) r gs) ->
    rs = filter (same k) (rows ++ [r]) /\ rs <> [].
Proof.
  induction gs as [|[k0 rs0] gs IH]; simpl; intros Hnd Hgs Hnew k rs Hin.
  - destruct Hin as [Hin|[]]. inversion Hin; subst.
    rewrite filter_app, Hnew by tauto. simpl. unfold same at 1.
    rewrite eqb_refl_true. split; [reflexivity|discriminate].
  - inversion Hnd as [|? ? Hn Hd]; subst.
    destruct (eqb (key r) k0) eqn:E; simpl in Hin.
    + apply eqb_eq in E. destruct Hin as [Hin|Hin].
      * inversion Hin; subst. destruct (Hgs (key r) rs0) as [-> _]; [now left|].
        rewrite filter_app. simpl. unfold same at 3. rewrite eqb_refl_true.
        split; [reflexivity|]. intros H. now apply app_eq_nil in H as [_ H].
      * destruct (Hgs k rs) as [-> Hne]; [now right|]. split; [|exact Hne].
        rewrite filter_app. simpl. unfold same at 3.
        destruct (eqb (key r) k) eqn:E'; [|now rewrite app_nil_r].
        apply eqb_eq in E'. exfalso. apply Hn.
        replace k0 with k by congruence. now apply (in_map fst) in Hin.
    + destruct Hin as [Hin|Hin].
      * inversion Hin; subst. destruct (Hgs k rs) as [-> Hne]; [now left|].
        split; [|exact Hne]. rewrite filter_app. simpl. unfold same at 3.
        rewrite E. now rewrite app_nil_r.
      * apply IH; auto.
        intros Hnot. apply Hnew. intros [Heq|H]; [|now apply Hnot].
        rewrite <- Heq, eqb_refl_true in E. discriminate.
Qed.

Lemma grouped_add (rows : list R) (gs : list (K * list R)) (r : R) :
  grouped eqb key rows gs -> grouped eqb key (rows ++ [r]) (add_to_group eqb (key r) r gs).
Proof.
  intros [Hk Ha Hr Hs]. constructor.
  - now apply add_to_group_nodup.
  - intros r' Hin. rewrite add_to_group_keys.
    apply in_app_or in Hin as [Hin|[<-|[]]]; auto.
  - rewrite add_to_group_rows. now apply Permutation_app_tail.
  - apply add_to_group_same; auto.
    intros Hnot. destruct (filter (same (key r)) rows) as [|r' l] eqn:E; [reflexivity|].
    exfalso. assert (Hin : In r' (filter (same (key r)) rows)) by (rewrite E; now left).
    apply filter_In in Hin as [Hin Heq]. unfold same in Heq. apply eqb_eq in Heq.
    apply Hnot. rewrite <- Heq. now apply Ha.
Qed.

Lemma grouped_fold (l rows : list R) (gs : list (K * list R)) :
  grouped eqb key rows gs ->
  grouped eqb key (rows ++ l) (fold_left (fun gs r => add_to_group eqb (key r) r gs) l gs).
Proof.
  revert rows gs. induction l as [|r l IH]; simpl; intros rows gs H.
  - now rewrite app_nil_r.
  - replace (rows ++ r :: l) with ((rows ++ [r]) ++ l) by now rewrite <- app_assoc.
    now apply IH, grouped_add.
Qed.

Lemma group_by_grouped (rows : list R) : grouped eqb key rows (group_by eqb key rows).
Proof.
  apply (grouped_fold rows [] []). constructor; simpl.
  - constructor.
  - intros r [].
  - constructor.
  - intros k rs [].
Qed.

End Grouping.

Lemma zsum_perm (l l' : list Z) : Permutation l l' -> zsum l = zsum l'.
Proof. induction 1; simpl; lia. Qed.

Lemma zsum_app (l l' : list Z) : zsum (l ++ l') = zsum l + zsum l'.
Proof. induction l; simpl; lia. Qed.


Lemma distinct_by_nodup {A : Type} (eqb : A -> A -> bool) (l : list A) :
  (forall a, eqb a a = true) -> NoDup (distinct_by eqb l).
Proof.
  intros Hrefl. induction l as [|a l IH]; simpl; constructor.
  - intros H. apply filter_In in H as [_ H]. now rewrite Hrefl in H.
  - now apply NoDup_filter.
Qed.


(** ** Joins *)



Section Joins.
Context {A B : Type} (on : A -> B -> bool).

Lemma join_in (a : A) (b : B) (la : list A) (lb : list B) :
  In (a, b) (join on la lb) <-> In a la /\ In b lb /\ on a b = true.
Proof.
  unfold join. rewrite in_flat_map. split.
  - intros (a' & Ha & Hb). apply in_map_iff in Hb as (b' & Heq & Hb).
    inversion Heq; subst. apply filter_In in Hb. tauto.
  - intros (Ha & Hb & Hon). exists a. split; [exact Ha|].
    apply in_map_iff. exists b. split; [reflexivity|]. now apply filter_In.
Qed.


End Joins.



(** ** Running console programs *)

Lemma for_each_print {A : Type} (f : A -> line) (l : list A) (i : list string) :
  for_each (fun a => print (f a)) l i = Ok tt i (map (fun a => Print (f a)) l).
Proof.
  induction l as [|a l IH]; [reflexivity|].
  simpl. unfold bind at 1. simpl. now rewrite IH.
Qed.

Lemma for_each_percentage {A : Type} (count : A -> Z) (total : Z) (f : A -> float -> line)
    (l : list A) (i : list string) :
  total <> 0 ->
  for_each (fun a => pct <- percentage (count a) total ;; print (f a pct)) l i
  = Ok tt i (map (fun a => Print (f a (percent (count a) total))) l).
Proof.
  intros Ht. unfold percentage. rewrite (proj2 (Z.eqb_neq total 0) Ht).
  induction l as [|a l IH]; [reflexivity|].
  cbn [for_each map]. unfold bind at 1. unfold bind at 1. cbn [ret print app].
  now rewrite IH.
Qed.

Lemma for_each_percentage_zero {A : Type} (count : A -> Z) (f : A -> float -> line)
    (a : A) (l : list A) (i : list string) :
  for_each (fun a => pct <- percentage (count a) 0 ;; print (f a pct)) (a :: l) i
  = Raise ZeroDivisionError [].
Proof. reflexivity. Qed.

Lemma pair_eqb_eq (a b : string * string) : pair_eqb a b = true <-> a = b.
Proof.
  destruct a as [a1 a2], b as [b1 b2]. unfold pair_eqb. simpl.
  rewrite andb_true_iff, !String.eqb_eq. split; [intros [-> ->]|intros H; inversion H]; auto.
Qed.

(** ** Stops per colour and direction *)

(** Facts about explicit tables: distinct keys, references, bounds. *)
Ltac list_facts :=
  simpl;
  repeat match goal with
         | |- NoDup [] => constructor
         | |- NoDup (_ :: _) => constructor; [simpl; intuition discriminate|]
         | |- forall _, _ => intro
         | H : _ \/ _ |- _ => destruct H
         | H : False |- _ => destruct H
         | H : _ = ?x |- _ => is_var x; subst x; simpl
         | |- _ \/ _ => solve [auto 20]
         | |- _ <= _ => lia
         end.




Lemma no_stops_no_rows (db : database) :
  Stops db = [] -> q_stops_by_color_direction db = [].
Proof.
  intros H. unfold q_stops_by_color_direction, stop_join. now rewrite H.
Qed.




Lemma bind_ok {A B : Type} (m : M A) (f : A -> M B) (i i' : list string) (a : A)
    (o : list event) :
  m i = Ok a i' o -> bind m f i = prefixed o (f a i').
Proof. intros H. unfold bind, prefixed. now rewrite H. Qed.

Lemma bind_raise {A B : Type} (m : M A) (f : A -> M B) (i : list string) (e : exn)
    (o : list event) :
  m i = Raise e o -> bind m f i = Raise e o.
Proof. intros H. unfold bind. now rewrite H. Qed.

Lemma prefixed_prefixed {A : Type} (o o' : list event) (r : res A) :
  prefixed o (prefixed o' r) = prefixed (o ++ o') r.
Proof. destruct r; simpl; now rewrite app_assoc. Qed.

Lemma prefixed_nil {A : Type} (r : res A) : prefixed [] r = r.
Proof. now destruct r. Qed.

(** ** Order of texts *)

Lemma str_leb_total (a b : string) : str_leb a b = true \/ str_leb b a = true.
Proof. apply String.leb_total. Qed.

Lemma str_leb_trans (a b c : string) :
  str_leb a b = true -> str_leb b c = true -> str_leb a c = true.
Proof.
  unfold str_leb, String.leb. revert b c.
  induction a as [|x a IH]; intros [|y b] [|z c]; simpl; try easy.
  unfold Ascii.compare.
  destruct (N.compare_spec (N_of_ascii x) (N_of_ascii y)),
           (N.compare_spec (N_of_ascii y) (N_of_ascii z)),
           (N.compare_spec (N_of_ascii x) (N_of_ascii z));
    try easy; try lia.
  apply IH.
Qed.

(** ** Python slices *)

Lemma py_slice_to_5 {A : Type} (l : list A) : py_slice_to l 5 = firstn 5 l.
Proof.
  unfold py_slice_to, py_index. change (5 <? 0) with false. cbv iota.
  destruct (Z.le_ge_cases (Z.of_nat (length l)) 5) as [H|H].
  - rewrite Z.min_l, Nat2Z.id by exact H. rewrite !firstn_all2; auto; lia.
  - rewrite Z.min_r by lia. reflexivity.
Qed.

Lemma py_slice_from_minus_5 {A : Type} (l : list A) :
  py_slice_from l (-5) = skipn (length l - 5) l.
Proof.
  unfold py_slice_from, py_index. change (-5 <? 0) with true. cbv iota.
  f_equal. lia.
Qed.

Lemma first_and_last_five_eq {A : Type} (l : list A) :
  first_and_last_five l = firstn 5 l ++ skipn (length l - 5) l.
Proof.
  unfold first_and_last_five. now rewrite py_slice_to_5, py_slice_from_minus_5.
Qed.

Lemma NoDup_app_drop {A : Type} (a m c : list A) :
  NoDup (a ++ m ++ c) -> NoDup (a ++ c).
Proof.
  induction m as [|x m IH]; simpl; [auto|].
  intros H. apply IH. now apply NoDup_remove_1 in H.
Qed.

Lemma first_and_last_five_long {A : Type} (l : list A) :
  (10 <= length l)%nat ->
  length (first_and_last_five l) = 10%nat
  /\ (NoDup l -> NoDup (first_and_last_five l)).
Proof.
  intros Hn. rewrite first_and_last_five_eq. split.
  - rewrite length_app, length_firstn, length_skipn. lia.
  - intros Hnd. apply NoDup_app_drop with (m := firstn (length l - 10) (skipn 5 l)).
    replace (length l - 5)%nat with ((length l - 10) + 5)%nat by lia.
    now rewrite <- skipn_skipn, !firstn_skipn.
Qed.

Lemma first_and_last_five_short {A : Type} (l : list A) :
  (length l < 10)%nat ->
  length (first_and_last_five l) = (2 * Nat.min (length l) 5)%nat
  /\ ((length l <= 5)%nat -> first_and_last_five l = l ++ l)
  /\ (forall x, In x l -> In x (first_and_last_five l)).
Proof.
  intros Hn. rewrite first_and_last_five_eq. repeat split.
  - rewrite length_app, length_firstn, length_skipn. lia.
  - intros H5. replace (length l - 5)%nat with 0%nat by lia.
    now rewrite firstn_all2 by exact H5.
  - intros x Hx. rewrite <- (firstn_skipn 5 l) in Hx.
    apply in_app_or in Hx as [Hx|Hx]; apply in_or_app; [now left|right].
    replace 5%nat with ((5 - (length l - 5)) + (length l - 5))%nat in Hx by lia.
    rewrite <- skipn_skipn in Hx.
    rewrite <- (firstn_skipn (5 - (length l - 5)) (skipn (length l - 5) l)).
    apply in_or_app. now right.
Qed.

(** ** Grouped and ordered query results *)

Section GroupedQuery.
Context {K R V : Type} (eqb : K -> K -> bool) (key : R -> K) (agg : list R -> V).
Context (leb : K * V -> K * V -> bool).
Hypothesis eqb_eq : forall a b, eqb a b = true <-> a = b.

Let result (rows : list R) : list (K * V) :=
  order_by leb (map (fun g => (fst g, agg (snd g))) (group_by eqb key rows)).

(** Every key heads one row of the result. *)
Lemma grouped_query_keys (rows : list R) : NoDup (map fst (result rows)).
Proof.
  unfold result.
  eapply Permutation_NoDup; [apply Permutation_map, order_by_perm|].
  rewrite map_map. simpl. eapply grouped_keys, group_by_grouped, eqb_eq.
Qed.

(** A row of the result aggregates the rows that carry its key, and there
    is at least one of them. *)
Lemma grouped_query_row (rows : list R) (k : K) (v : V) :
  In (k, v) (result rows) ->
  v = agg (filter (fun r => eqb (key r) k) rows)
  /\ filter (fun r => eqb (key r) k) rows <> [].
Proof.
  unfold result. rewrite order_by_in, in_map_iff.
  intros ([k' rs] & Heq & Hin). simpl in Heq. inversion Heq; subst.
  destruct (grouped_same eqb key _ _ (group_by_grouped eqb key eqb_eq rows) _ _ Hin)
    as [-> Hne].
  auto.
Qed.

(** Every key of the table heads a row of the result. *)
Lemma grouped_query_complete (rows : list R) (r : R) :
  In r rows -> In (key r) (map fst (result rows)).
Proof.
  intros Hin. unfold result.
  eapply Permutation_in; [apply Permutation_map, order_by_perm|].
  rewrite map_map. simpl.
  now apply (grouped_all eqb key _ _ (group_by_grouped eqb key eqb_eq rows)).
Qed.
End GroupedQuery.

Lemma order_by_text_sorted {V : Type} (l : list (string * V)) :
  StronglySorted by_text (order_by (fun a b => str_leb (fst a) (fst b)) l).
Proof.
  apply (order_by_sorted (fun a b : string * V => str_leb (fst a) (fst b))).
  - intros a b. apply str_leb_total.
  - intros a b c. apply str_leb_trans.
Qed.

(** ** The daily series *)

Lemma daily_ridership_dates (db : database) (station_id : Z) (y : string) :
  NoDup (map fst (q_daily_ridership db station_id y))
  /\ StronglySorted by_text (q_daily_ridership db station_id y).
Proof.
  split.
  - unfold q_daily_ridership.
    apply (grouped_query_keys String.eqb (fun r => strftime_Ymd (Ride_Date r))
             (fun rs => zsum (map Num_Riders rs))).
    apply String.eqb_eq.
  - apply order_by_text_sorted.
Qed.

Lemma NoDup_of_keys {K V : Type} (l : list (K * V)) : NoDup (map fst l) -> NoDup l.
Proof. apply NoDup_map_inv. Qed.

(** A run of the comparison in which both names resolve. *)
Lemma daily_comparison_resolved (db : database) (y s1 s2 : string) (rest : list string)
    (id1 id2 : Z) (name1 name2 : string) :
  q_stations_containing db s1 = [(id1, name1)] ->
  q_stations_containing db s2 = [(id2, name2)] ->
  let data1 := q_daily_ridership db id1 y in
  let data2 := q_daily_ridership db id2 y in
  daily_ridership_comparison db y (s1 :: s2 :: rest)
  = prefixed
      ([Prompt (String LF "Enter station 1 (wildcards _ and %): ");
        Prompt (String LF "Enter station 2 (wildcards _ and %): ");
        Print (StationHeader 1 id1 name1)]
       ++ map (fun row => Print (DayLine (fst row) (snd row))) (first_and_last_five data1)
       ++ [Print (StationHeader 2 id2 name2)]
       ++ map (fun row => Print (DayLine (fst row) (snd row))) (first_and_last_five data2))
      ((plot_input <- input (String LF "Plot? (y/n) ") ;;
        if String.eqb (lower plot_input) "y"
        then daily_plot y name1 name2 data1 data2
        else ret tt) rest).
Proof.
  intros H1 H2 data1 data2. unfold daily_ridership_comparison.
  rewrite (bind_ok _ _ _ (s2 :: rest) s1 [Prompt (String LF "Enter station 1 (wildcards _ and %): ")])
    by reflexivity.
  rewrite (bind_ok _ _ _ (s2 :: rest) (Some (id1, name1, data1)) [])
    by (unfold fetch_daily_ridership; now rewrite H1).
  rewrite (bind_ok _ _ _ rest s2 [Prompt (String LF "Enter station 2 (wildcards _ and %): ")])
    by reflexivity.
  rewrite (bind_ok _ _ _ rest (Some (id2, name2, data2)) [])
    by (unfold fetch_daily_ridership; now rewrite H2).
  rewrite (bind_ok _ _ _ rest tt [Print (StationHeader 1 id1 name1)]) by reflexivity.
  rewrite (bind_ok _ _ _ rest tt _ (for_each_print _ _ _)).
  rewrite (bind_ok _ _ _ rest tt [Print (StationHeader 2 id2 name2)]) by reflexivity.
  rewrite (bind_ok _ _ _ rest tt _ (for_each_print _ _ _)).
  rewrite !prefixed_prefixed. f_equal.
  rewrite !app_nil_r, <- !app_assoc. reflexivity.
Qed.

Lemma week_db_resolves :
  q_stations_containing week_db "Cicero" = [(40420, "Cicero-Cermak")].
Proof. reflexivity. Qed.

(** C5, the claim as stated, fails for a station with fewer than ten days:
    with seven days in the year the report prints ten lines per station, the
    third, fourth and fifth day twice. *)
Lemma seven_days_are_shown_as_ten_lines :
  length (q_daily_ridership week_db 40420 "2020") = 7%nat
  /\ events (daily_ridership_comparison week_db "2020" ["Cicero"; "Cicero"; "n"])
     = [Prompt (String LF "Enter station 1 (wildcards _ and %): ");
        Prompt (String LF "Enter station 2 (wildcards _ and %): ");
        Print (StationHeader 1 40420 "Cicero-Cermak")]
       ++ map (fun d => Print (DayLine (strftime_Ymd {| year := 2020; month := 1; day := d |})
                                  (100 + d)))
              [1; 2; 3; 4; 5; 3; 4; 5; 6; 7]
       ++ [Print (StationHeader 2 40420 "Cicero-Cermak")]
       ++ map (fun d => Print (DayLine (strftime_Ymd {| year := 2020; month := 1; day := d |})
                                  (100 + d)))
              [1; 2; 3; 4; 5; 3; 4; 5; 6; 7]
       ++ [Prompt (String LF "Plot? (y/n) ")].
Proof. split; reflexivity. Qed.

Lemma twelve_days_are_shown_as_ten_lines :
  map fst (first_and_last_five (q_daily_ridership fortnight_db 40420 "2020"))
  = ["2020-01-01"; "2020-01-02"; "2020-01-03"; "2020-01-04"; "2020-01-05";
     "2020-01-08"; "2020-01-09"; "2020-01-10"; "2020-01-11"; "2020-01-12"].
Proof. reflexivity. Qed.

(** C5, amended: when both names resolve, the report of each station prints
    the rows [data[:5] + data[-5:]] of its daily series, which holds one row
    per date in ascending order of date.  With N >= 10 days these are the five
    earliest and the five latest days, ten lines and no day twice.  With
    N < 10 days the two slices overlap: every day is shown, the report has
    2 * min(N, 5) lines, and for N <= 5 it is the whole series printed
    twice. *)
Theorem daily_report_shows_first_and_last_five (db : database) (y s1 s2 : string)
    (rest : list string) (id1 id2 : Z) (name1 name2 : string) :
  q_stations_containing db s1 = [(id1, name1)] ->
  q_stations_containing db s2 = [(id2, name2)] ->
  (exists continuation,
     daily_ridership_comparison db y (s1 :: s2 :: rest)
     = prefixed
         ([Prompt (String LF "Enter station 1 (wildcards _ and %): ");
           Prompt (String LF "Enter station 2 (wildcards _ and %): ");
           Print (StationHeader 1 id1 name1)]
          ++ map (fun row => Print (DayLine (fst row) (snd row)))
                 (first_and_last_five (q_daily_ridership db id1 y))
          ++ [Print (StationHeader 2 id2 name2)]
          ++ map (fun row => Print (DayLine (fst row) (snd row)))
                 (first_and_last_five (q_daily_ridership db id2 y)))
         continuation)
  /\ forall data, data = q_daily_ridership db id1 y \/ data = q_daily_ridership db id2 y ->
       let n := length data in
       let shown := first_and_last_five data in
       NoDup (map fst data)
       /\ StronglySorted by_text data
       /\ shown = firstn 5 data ++ skipn (n - 5) data
       /\ ((10 <= n)%nat -> length shown = 10%nat /\ NoDup shown)
       /\ ((n < 10)%nat ->
             length shown = (2 * Nat.min n 5)%nat
             /\ (forall row, In row data -> In row shown)
             /\ ((n <= 5)%nat -> shown = data ++ data)).
Proof.
  intros H1 H2. split.
  - eexists. apply daily_comparison_resolved; eassumption.
  - intros data Hdata n shown.
    assert (Hdates : NoDup (map fst data) /\ StronglySorted by_text data)
      by (destruct Hdata as [-> | ->]; apply daily_ridership_dates).
    destruct Hdates as [Hnd Hsorted].
    repeat split; auto.
    + apply first_and_last_five_eq.
    + now apply first_and_last_five_long.
    + apply first_and_last_five_long; [assumption|now apply NoDup_of_keys].
    + now apply first_and_last_five_short.
    + now apply first_and_last_five_short.
    + now apply first_and_last_five_short.
Qed.

Lemma daily_report_week_db :
  (exists continuation,
     daily_ridership_comparison week_db "2020" ["Cicero"; "Cicero"; "n"]
     = prefixed
         ([Prompt (String LF "Enter station 1 (wildcards _ and %): ");
           Prompt (String LF "Enter station 2 (wildcards _ and %): ");
           Print (StationHeader 1 40420 "Cicero-Cermak")]
          ++ map (fun row => Print (DayLine (fst row) (snd row)))
                 (first_and_last_five (q_daily_ridership week_db 40420 "2020"))
          ++ [Print (StationHeader 2 40420 "Cicero-Cermak")]
          ++ map (fun row => Print (DayLine (fst row) (snd row)))
                 (first_and_last_five (q_daily_ridership week_db 40420 "2020")))
         continuation)
  /\ forall data, data = q_daily_ridership week_db 40420 "2020"
                  \/ data = q_daily_ridership week_db 40420 "2020" ->
       let n := length data in
       let shown := first_and_last_five data in
       NoDup (map fst data)
       /\ StronglySorted by_text data
       /\ shown = firstn 5 data ++ skipn (n - 5) data
       /\ ((10 <= n)%nat -> length shown = 10%nat /\ NoDup shown)
       /\ ((n < 10)%nat ->
             length shown = (2 * Nat.min n 5)%nat
             /\ (forall row, In row data -> In row shown)
             /\ ((n <= 5)%nat -> shown = data ++ data)).
Proof.
  apply (daily_report_shows_first_and_last_five week_db "2020" "Cicero" "Cicero" ["n"]
           40420 40420 "Cicero-Cermak" "Cicero-Cermak");
    reflexivity.
Defined.

(** ** Shares by type of day *)

Lemma idle_db_well_formed : well_formed idle_db.
Proof. constructor; list_facts. Qed.

(** C3: the code divides by a total of zero.  The station's only entry has
    0 riders; the command prints the heading and then stops with
    [ZeroDivisionError], it prints neither a percentage nor the total, and
    the exception ends the whole program. *)
Theorem zero_total_raises_division_by_zero (L : pylib) :
  well_formed idle_db
  /\ q_ridership_percentages idle_db "Dempster-Skokie" = [("U", 0)]
  /\ ridership_percentages idle_db "Dempster-Skokie" []
     = Raise ZeroDivisionError
         [Print (Text "Percentage of ridership for the Dempster-Skokie station:")]
  /\ exists out,
       main L idle_db ["2"; "Dempster-Skokie"; "1"; "%"; "x"]
       = Some (Crashed ZeroDivisionError out).
Proof.
  split; [exact idle_db_well_formed|].
  repeat split; try reflexivity. eexists. reflexivity.
Qed.




(** ** The chart of the daily comparison *)

(** C4: the code plots both stations against the days of station 1.  The
    second station has entries on January 2 and 3 (days 2 and 3 of the year);
    the chart draws its riders at days 1 and 2, the dates of the first
    station.  When the two stations have different numbers of days the chart
    is not drawn and the command stops with [ValueError]. *)
Theorem second_series_is_drawn_at_first_stations_days :
  q_daily_ridership shifted_db 40060 "2020" = [("2020-01-02", 300); ("2020-01-03", 400)]
  /\ map (fun row => option_map day_of_year (strptime_Ymd (fst row)))
         (q_daily_ridership shifted_db 40060 "2020") = [Some 2; Some 3]
  /\ daily_ridership_comparison shifted_db "2020" ["Addison"; "Belmont"; "y"]
     = Ok tt []
         [Prompt (String LF "Enter station 1 (wildcards _ and %): ");
          Prompt (String LF "Enter station 2 (wildcards _ and %): ");
          Print (StationHeader 1 41240 "Addison-Blue");
          Print (DayLine "2020-01-01" 100); Print (DayLine "2020-01-02" 200);
          Print (DayLine "2020-01-01" 100); Print (DayLine "2020-01-02" 200);
          Print (StationHeader 2 40060 "Belmont-Blue");
          Print (DayLine "2020-01-02" 300); Print (DayLine "2020-01-03" 400);
          Print (DayLine "2020-01-02" 300); Print (DayLine "2020-01-03" 400);
          Prompt (String LF "Plot? (y/n) ");
          Show (DailyPlot "Ridership Each Day of 2020"
                  {| label := "Addison-Blue"; xs := [1; 2]; ys := [100; 200] |}
                  {| label := "Belmont-Blue"; xs := [1; 2]; ys := [300; 400] |}
                  [0])]
  /\ exists out,
       daily_ridership_comparison shifted_db "2020" ["Addison"; "Clark"; "y"]
       = Raise ValueError out.
Proof.
  repeat split; try reflexivity. eexists. reflexivity.
Qed.

Lemma days_of_pure (data : list (string * Z)) (stdin i : list string) (days : list Z)
    (o : list event) :
  days_of data stdin = Ok days i o -> i = stdin /\ o = [].
Proof.
  revert days i o. induction data as [|row data IH]; simpl; intros days i o E.
  - inversion E; auto.
  - destruct (strptime_Ymd (fst row)); [|discriminate].
    unfold bind in E.
    destruct (days_of data stdin) as [ds i' o'|e' o'] eqn:E'; [|discriminate].
    destruct (IH ds i' o' eq_refl) as [-> ->]. inversion E; auto.
Qed.

(** Whatever the data, the chart gives both series the days of station 1. *)
Lemma daily_plot_shares_days (y name1 name2 : string) (data1 data2 : list (string * Z))
    (stdin stdin' : list string) (out : list event) :
  daily_plot y name1 name2 data1 data2 stdin = Ok tt stdin' out ->
  exists days ticks,
    days_of data1 stdin = Ok days stdin []
    /\ out = [Show (DailyPlot (String.append "Ridership Each Day of " y)
                      {| label := name1; xs := days; ys := map snd data1 |}
                      {| label := name2; xs := days; ys := map snd data2 |}
                      ticks)].
Proof.
  unfold daily_plot, bind.
  destruct (days_of data1 stdin) as [days i o|e o] eqn:E; [|discriminate].
  destruct (days_of_pure _ _ _ _ _ E) as [-> ->].
  destruct (negb (length days =? length (map snd data2))%nat); [discriminate|].
  destruct days as [|d ds]; [discriminate|].
  intros H. inversion H; subst. eauto.
Qed.

(** ** Weekday ridership of every station *)


Lemma filter_none {B : Type} (f : B -> bool) (l : list B) :
  (forall b, In b l -> f b = false) -> filter f l = [].
Proof.
  induction l as [|b l IH]; simpl; intros H; [reflexivity|].
  rewrite (H b) by now left. apply IH. intros b' Hb'. apply H. now right.
Qed.








(** ** Patterns *)

Lemma like_percent (p s : list ascii) :
  like_chars ("%"%char :: p) s
  = like_chars p s
    || match s with [] => false | _ :: s' => like_chars ("%"%char :: p) s' end.
Proof. destruct s; reflexivity. Qed.






Lemma chars_text (l : list ascii) : chars (text l) = l.
Proof. apply list_ascii_of_string_of_list_ascii. Qed.



(** ** Finding the station a pattern names *)




(** C8, amended: every command applies the same three-way rule to its own
    list of matches: the yearly and the monthly command to the distinct
    station names matched by the pattern as given, either lookup of the
    comparison to the stations matched by the widened pattern.  No match and
    several matches each print their own message and end the command there
    (nothing else is printed or asked, no series is computed), and a single
    match goes on with just that station. *)
Theorem one_station_or_a_report (db : database) (p y : string) (stdin : list string) :
  (* yearly *)
  (q_station_names_like db p = [] ->
     yearly_ridership db p stdin = Ok tt stdin [Print (Text "**No station found...")])
  /\ ((2 <= length (q_station_names_like db p))%nat ->
     yearly_ridership db p stdin = Ok tt stdin [Print (Text "**Multiple stations found...")])
  /\ (forall name, q_station_names_like db p = [name] ->
     yearly_ridership db p stdin = yearly_report db name stdin)
  (* monthly *)
  /\ (q_station_names_like db p = [] ->
     monthly_ridership db p stdin = Ok tt stdin [Print (Text "**No station found...")])
  /\ ((2 <= length (q_station_names_like db p))%nat ->
     monthly_ridership db p stdin = Ok tt stdin [Print (Text "**Multiple stations found...")])
  /\ (forall name, q_station_names_like db p = [name] ->
     monthly_ridership db p stdin = monthly_report db name stdin)
  (* either lookup of the comparison *)
  /\ (q_stations_containing db p = [] ->
     fetch_daily_ridership db y p stdin = Ok None stdin [Print (Text "**No station found...")])
  /\ ((2 <= length (q_stations_containing db p))%nat ->
     fetch_daily_ridership db y p stdin
     = Ok None stdin [Print (Text "**Multiple stations found...")])
  /\ (forall id name, q_stations_containing db p = [(id, name)] ->
     fetch_daily_ridership db y p stdin
     = Ok (Some (id, name, q_daily_ridership db id y)) stdin [])
  (* the comparison stops at the first lookup that fails *)
  /\ (forall msg, fetch_daily_ridership db y p stdin = Ok None stdin [Print msg] ->
     daily_ridership_comparison db y (p :: stdin)
     = Ok tt stdin [Prompt (String LF "Enter station 1 (wildcards _ and %): "); Print msg])
  /\ (forall p1 found msg,
     fetch_daily_ridership db y p1 (p :: stdin) = Ok (Some found) (p :: stdin) [] ->
     fetch_daily_ridership db y p stdin = Ok None stdin [Print msg] ->
     daily_ridership_comparison db y (p1 :: p :: stdin)
     = Ok tt stdin [Prompt (String LF "Enter station 1 (wildcards _ and %): ");
                    Prompt (String LF "Enter station 2 (wildcards _ and %): "); Print msg])
  /\ Text "**No station found..." <> Text "**Multiple stations found...".
Proof.
  unfold yearly_ridership, monthly_ridership, fetch_daily_ridership.
  repeat split.
  - now intros ->.
  - destruct (q_station_names_like db p) as [|a [|b l]]; simpl; intros H; [lia|lia|reflexivity].
  - now intros name ->.
  - now intros ->.
  - destruct (q_station_names_like db p) as [|a [|b l]]; simpl; intros H; [lia|lia|reflexivity].
  - now intros name ->.
  - now intros ->.
  - destruct (q_stations_containing db p) as [|a [|b l]]; simpl; intros H; [lia|lia|].
    now destruct a.
  - now intros id name ->.
  - intros msg H. unfold daily_ridership_comparison.
    rewrite (bind_ok _ _ _ stdin p [Prompt (String LF "Enter station 1 (wildcards _ and %): ")])
      by reflexivity.
    unfold fetch_daily_ridership. now rewrite (bind_ok _ _ _ _ _ _ H).
  - intros p1 found msg H1 H. unfold daily_ridership_comparison.
    rewrite (bind_ok _ _ _ (p :: stdin) p1 [Prompt (String LF "Enter station 1 (wildcards _ and %): ")])
      by reflexivity.
    unfold fetch_daily_ridership. rewrite (bind_ok _ _ _ _ _ _ H1).
    destruct found as [[id1 name1] data1].
    rewrite (bind_ok _ _ _ stdin p [Prompt (String LF "Enter station 2 (wildcards _ and %): ")])
      by reflexivity.
    now rewrite (bind_ok _ _ _ _ _ _ H).
  - discriminate.
Qed.

(** C8, the claim as stated, fails in the comparison: exactly one station
    is matched by the pattern "Main"; the yearly and the monthly command go on
    with it, the comparison reports several stations and stops. *)
Lemma one_match_is_rejected_by_the_comparison :
  filter (fun s => like "Main" (Station_Name s)) (Stations main_db)
  = [ {| Station_ID := 40270; Station_Name := "Main" |} ]
  /\ events (yearly_ridership main_db "Main" ["n"])
     = [Print (Text "Yearly Ridership at Main"); Print (YearLine "2020" 70);
        Prompt (String LF "Plot? (y/n) ")]
  /\ events (monthly_ridership main_db "Main" ["2020"; "n"])
     = [Prompt "Enter a year: "; Print (Text "Monthly Ridership at Main for 2020");
        Print (MonthLine "01" "2020" 70); Prompt (String LF "Plot? (y/n) ")]
  /\ events (daily_ridership_comparison main_db "2020" ["Main"; "Main"; "n"])
     = [Prompt (String LF "Enter station 1 (wildcards _ and %): ");
        Print (Text "**Multiple stations found...")].
Proof. repeat split; reflexivity. Qed.

(** ** Letter case *)

Lemma lower_ascii_idem (c : ascii) : lower_ascii (lower_ascii c) = lower_ascii c.
Proof. destruct c as [[] [] [] [] [] [] [] []]; reflexivity. Qed.

Lemma lower_upper_ascii (c : ascii) : lower_ascii (upper_ascii c) = lower_ascii c.
Proof. destruct c as [[] [] [] [] [] [] [] []]; reflexivity. Qed.

Lemma upper_lower_ascii (c : ascii) : upper_ascii (lower_ascii c) = upper_ascii c.
Proof. destruct c as [[] [] [] [] [] [] [] []]; reflexivity. Qed.

Lemma cased_lower_ascii (c : ascii) :
  is_upper (lower_ascii c) || is_lower (lower_ascii c) = is_upper c || is_lower c.
Proof. destruct c as [[] [] [] [] [] [] [] []]; reflexivity. Qed.

Lemma lower_ascii_uncased (c : ascii) :
  is_upper c || is_lower c = false -> lower_ascii c = c.
Proof. destruct c as [[] [] [] [] [] [] [] []]; simpl; intros H; try reflexivity; discriminate. Qed.

(** The title form of a text depends on its letters, not on their case. *)
Lemma title_from_lower (b : bool) (l : list ascii) :
  title_from b (map lower_ascii l) = title_from b l.
Proof.
  revert b. induction l as [|c l IH]; intros b; [reflexivity|].
  simpl. rewrite cased_lower_ascii, !IH, lower_ascii_idem, upper_lower_ascii.
  destruct (is_upper c || is_lower c) eqn:E; [reflexivity|].
  now rewrite lower_ascii_uncased.
Qed.

Lemma title_lower (s : string) : title (lower s) = title s.
Proof. unfold title, lower. now rewrite chars_text, title_from_lower. Qed.

Lemma title_same_letters (s1 s2 : string) : lower s1 = lower s2 -> title s1 = title s2.
Proof. intros H. now rewrite <- (title_lower s1), <- (title_lower s2), H. Qed.

(** The title form has the letters of the text. *)
Lemma lower_title (s : string) : lower (title s) = lower s.
Proof.
  unfold lower, title. rewrite chars_text. f_equal.
  generalize false. induction (chars s) as [|c l IH]; intros b; [reflexivity|].
  simpl. destruct (is_upper c || is_lower c); simpl; rewrite IH; [|reflexivity].
  destruct b; now rewrite ?lower_ascii_idem, ?lower_upper_ascii.
Qed.

(** ** Stops of a line in one direction *)

Lemma line_ids_nil (db : database) (c : string) :
  q_line_ids db c = [] <-> forall l, In l (Lines db) -> Color l <> c.
Proof.
  unfold q_line_ids. split.
  - intros H l Hl Hc. apply map_eq_nil in H.
    assert (Hin : In l (filter (fun l => String.eqb (Color l) c) (Lines db)))
      by (apply filter_In; split; [exact Hl|now apply String.eqb_eq]).
    now rewrite H in Hin.
  - intros H. rewrite filter_none; [reflexivity|].
    intros l Hl. apply String.eqb_neq. now apply H.
Qed.





(** ** Failure reports and exceptions *)

Lemma quiet_nil : quiet [].
Proof. intros l []. Qed.

Lemma quiet_app (o o' : list event) : quiet o -> quiet o' -> quiet (o ++ o').
Proof. intros H H' l Hin. apply in_app_or in Hin as [Hin|Hin]; auto. Qed.

Lemma quiet_prompt (s : string) : quiet [Prompt s].
Proof. intros l [H|[]]. discriminate. Qed.

Lemma quiet_show (p : plot) : quiet [Show p].
Proof. intros l [H|[]]. discriminate. Qed.

Lemma quiet_print (l : line) : report_of l = None -> quiet [Print l].
Proof. intros H l' [Heq|[]]. now inversion Heq; subst. Qed.

Create HintDb console discriminated.

Lemma silent_ret {A : Type} (a : A) : silent (ret a).
Proof. intros i. apply quiet_nil. Qed.

Lemma silent_raise {A : Type} (e : exn) : silent (@raise A e).
Proof. intros i. apply quiet_nil. Qed.

Lemma silent_show (p : plot) : silent (show p).
Proof. intros i. apply quiet_show. Qed.

Lemma silent_input (s : string) : silent (input s).
Proof. intros [|a i]; apply quiet_prompt. Qed.

Lemma silent_print (l : line) : report_of l = None -> silent (print l).
Proof. intros H i. now apply quiet_print. Qed.

Lemma silent_bind {A B : Type} (m : M A) (f : A -> M B) :
  silent m -> (forall a, silent (f a)) -> silent (bind m f).
Proof.
  intros Hm Hf i. unfold bind. specialize (Hm i).
  destruct (m i) as [a i' o|e o]; [|exact Hm].
  specialize (Hf a i'). destruct (f a i'); now apply quiet_app.
Qed.

Lemma silent_for_each {A : Type} (f : A -> M unit) (l : list A) :
  (forall a, silent (f a)) -> silent (for_each f l).
Proof.
  intros Hf. induction l as [|a l IH]; simpl; [apply silent_ret|].
  apply silent_bind; auto.
Qed.

Lemma silent_percentage (count total : Z) : silent (percentage count total).
Proof. unfold percentage. destruct (total =? 0); [apply silent_raise|apply silent_ret]. Qed.

Lemma silent_tidy {A : Type} (m : M A) : silent m -> tidy m.
Proof. intros H i. right. apply H. Qed.

Lemma tidy_print (l : line) : tidy (print l).
Proof. intros i. left. now exists tt, i, [Print l]. Qed.

(** After a silent step the rest may report and return. *)
Lemma tidy_bind {A B : Type} (m : M A) (f : A -> M B) :
  silent m -> (forall a, tidy (f a)) -> tidy (bind m f).
Proof.
  intros Hm Hf i. unfold bind. specialize (Hm i).
  destruct (m i) as [a i' o|e o]; [|now right].
  destruct (Hf a i') as [(b & i'' & o' & H)|H].
  - rewrite H. left. eauto.
  - right. destruct (f a i'); now apply quiet_app.
Qed.

(** A report followed by a plain return is tidy. *)
Lemma tidy_print_ret {A : Type} (l : line) (a : A) : tidy (print l ;; ret a).
Proof. intros i. left. now exists a, i, ([Print l] ++ []). Qed.

#[local] Hint Resolve silent_ret silent_raise silent_show silent_input silent_bind
  silent_for_each silent_percentage tidy_print tidy_print_ret : console.

(** The lines of a report show data; none of them is a failure message. *)
Ltac data_line := apply silent_print; reflexivity.

Ltac step_silent :=
  repeat first
    [ apply silent_bind | apply silent_for_each | apply silent_ret | apply silent_raise
    | apply silent_show | apply silent_input | apply silent_percentage
    | data_line
    | match goal with |- forall _, silent _ => intro end ].

Lemma print_stats_silent (db : database) : silent (print_stats db).
Proof.
  unfold print_stats. step_silent.
  destruct (q_date_range db); step_silent.
Qed.

Lemma find_station_names_tidy (db : database) (p : string) :
  tidy (find_station_names db p).
Proof.
  unfold find_station_names.
  destruct (q_find_station_names db p); [apply tidy_print|].
  apply silent_tidy. step_silent.
Qed.

Lemma ridership_percentages_tidy (db : database) (name : string) :
  tidy (ridership_percentages db name).
Proof.
  unfold ridership_percentages.
  destruct (q_ridership_percentages db name); [apply tidy_print|].
  apply silent_tidy. step_silent.
Qed.

Lemma total_weekday_ridership_tidy (db : database) : tidy (total_weekday_ridership db).
Proof. unfold total_weekday_ridership. apply silent_tidy. step_silent. Qed.

Lemma list_stops_tidy (db : database) (color : string) :
  tidy (list_stops_by_line_and_direction db color).
Proof.
  unfold list_stops_by_line_and_direction.
  destruct (q_line_ids db (title color)); [apply tidy_print|].
  apply tidy_bind; [apply silent_input|]. intros answer.
  destruct (negb _); [apply tidy_print|].
  destruct (q_stops db (title color) (upper answer)); apply silent_tidy; step_silent.
Qed.

Lemma stops_by_color_tidy (db : database) : tidy (stops_for_each_color_by_direction db).
Proof. unfold stops_for_each_color_by_direction. apply silent_tidy. step_silent. Qed.

Lemma yearly_ridership_tidy (db : database) (p : string) : tidy (yearly_ridership db p).
Proof.
  unfold yearly_ridership, yearly_report.
  destruct (q_station_names_like db p) as [|name [|name' names]]; auto with console.
  apply silent_tidy. step_silent. destruct (String.eqb _ _); step_silent.
Qed.

Lemma monthly_ridership_tidy (db : database) (p : string) : tidy (monthly_ridership db p).
Proof.
  unfold monthly_ridership, monthly_report.
  destruct (q_station_names_like db p) as [|name [|name' names]]; auto with console.
  apply silent_tidy. step_silent. destruct (String.eqb _ _); step_silent.
Qed.

Lemma days_of_silent (data : list (string * Z)) : silent (days_of data).
Proof.
  induction data as [|row data IH]; simpl; [apply silent_ret|].
  destruct (strptime_Ymd (fst row)); step_silent. exact IH.
Qed.

Lemma daily_plot_silent (y name1 name2 : string) (data1 data2 : list (string * Z)) :
  silent (daily_plot y name1 name2 data1 data2).
Proof.
  unfold daily_plot. apply silent_bind; [apply days_of_silent|]. intros days.
  destruct (negb _); [apply silent_raise|]. destruct days; step_silent.
Qed.

(** A lookup of the comparison reports at most its own failure and returns. *)
Lemma fetch_daily_ridership_returns (db : database) (y p : string) (i : list string) :
  (exists found, fetch_daily_ridership db y p i = Ok (Some found) i [])
  \/ (exists msg, fetch_daily_ridership db y p i = Ok None i [Print msg]).
Proof.
  unfold fetch_daily_ridership.
  destruct (q_stations_containing db p) as [|[id name] [|other others]].
  - right. now eexists.
  - left. now eexists.
  - right. now eexists.
Qed.

Lemma tidy_after_fetch {B : Type} (db : database) (y p : string)
    (f : option (Z * string * list (string * Z)) -> M B) :
  (forall found, tidy (f (Some found))) ->
  (forall i, exists b i' o, f None i = Ok b i' o) ->
  tidy (bind (fetch_daily_ridership db y p) f).
Proof.
  intros Hsome Hnone i.
  destruct (fetch_daily_ridership_returns db y p i) as [(found & H)|(msg & H)];
    rewrite (bind_ok _ _ _ _ _ _ H).
  - rewrite prefixed_nil. apply Hsome.
  - destruct (Hnone i) as (b & i' & o & Hb). rewrite Hb. left. now eexists _, _, _.
Qed.

Lemma daily_comparison_tidy (db : database) (y : string) :
  tidy (daily_ridership_comparison db y).
Proof.
  unfold daily_ridership_comparison.
  apply tidy_bind; [apply silent_input|]. intros s1.
  apply tidy_after_fetch; [|intros i; now eexists _, _, _].
  intros [[id1 name1] data1].
  apply tidy_bind; [apply silent_input|]. intros s2.
  apply tidy_after_fetch; [|intros i; now eexists _, _, _].
  intros [[id2 name2] data2].
  apply silent_tidy. step_silent.
  destruct (String.eqb _ _); [apply daily_plot_silent|apply silent_ret].
Qed.

Lemma stations_within_mile_tidy (L : pylib) (db : database) (latitude : float) :
  tidy (stations_within_mile L db latitude).
Proof.
  unfold stations_within_mile.
  destruct (negb _); [apply tidy_print|].
  apply tidy_bind; [apply silent_input|]. intros answer.
  destruct (py_float L answer) as [longitude|]; [|apply silent_tidy, silent_raise].
  destruct (negb _); [apply tidy_print|].
  destruct (mile_box L latitude longitude) as [[[lat_lower lat_upper] lon_left] lon_right].
  destruct (order_by _ _); [apply tidy_print|].
  apply silent_tidy. step_silent. destruct (String.eqb _ _); step_silent.
Qed.

Lemma tidy_then_ret {A B : Type} (m : M A) (b : B) : tidy m -> tidy (m ;; ret b).
Proof.
  intros Hm i. unfold bind. destruct (Hm i) as [(a & i' & o & H)|H].
  - rewrite H. left. now eexists _, _, _.
  - right. destruct (m i) as [a i' o|e o]; simpl in *; [now rewrite app_nil_r|exact H].
Qed.

(** Every round of the command loop is tidy: an exception leaves it only
    when the round has reported no failure. *)
Lemma command_round_tidy (L : pylib) (db : database) : tidy (command_round L db).
Proof.
  unfold command_round. apply tidy_bind; [apply silent_input|]. intros command.
  destruct (String.eqb (lower command) "x"); [apply silent_tidy, silent_ret|].
  apply tidy_then_ret.
  repeat match goal with
           | |- tidy (if ?b then _ else _) => destruct b
           | |- tidy (bind (input _) _) => apply tidy_bind; [apply silent_input|intro]
           end;
      auto using find_station_names_tidy, ridership_percentages_tidy,
        total_weekday_ridership_tidy, list_stops_tidy, stops_by_color_tidy,
        yearly_ridership_tidy, monthly_ridership_tidy, daily_comparison_tidy, tidy_print.
  destruct (py_float L _); [apply stations_within_mile_tidy|apply silent_tidy, silent_raise].
Qed.

(** ** Input is only consumed *)

Lemma forward_ret {A : Type} (a : A) : reads_forward (ret a).
Proof. intros i a' i' o H. inversion H. subst. auto. Qed.

Lemma forward_raise {A : Type} (e : exn) : reads_forward (@raise A e).
Proof. intros i a i' o H. discriminate. Qed.

Lemma forward_print (l : line) : reads_forward (print l).
Proof. intros i a i' o H. inversion H. subst. auto. Qed.

Lemma forward_show (p : plot) : reads_forward (show p).
Proof. intros i a i' o H. inversion H. subst. auto. Qed.

Lemma forward_input (s : string) : reads_forward (input s).
Proof. intros [|x i] a i' o H; inversion H. subst. simpl. auto. Qed.

Lemma forward_bind {A B : Type} (m : M A) (f : A -> M B) :
  reads_forward m -> (forall a, reads_forward (f a)) -> reads_forward (bind m f).
Proof.
  intros Hm Hf i b i'' o H. unfold bind in H.
  destruct (m i) as [a i' o1|e o1] eqn:E; [|discriminate].
  destruct (f a i') as [b' j o2|e o2] eqn:E'; [|discriminate].
  inversion H; subst. apply Hm in E. apply Hf in E'. lia.
Qed.

Lemma forward_for_each {A : Type} (f : A -> M unit) (l : list A) :
  (forall a, reads_forward (f a)) -> reads_forward (for_each f l).
Proof.
  intros Hf. induction l as [|a l IH]; simpl; [apply forward_ret|].
  apply forward_bind; auto.
Qed.

Lemma forward_percentage (count total : Z) : reads_forward (percentage count total).
Proof. unfold percentage. destruct (total =? 0); [apply forward_raise|apply forward_ret]. Qed.

Lemma forward_days_of (data : list (string * Z)) : reads_forward (days_of data).
Proof.
  induction data as [|row data IH]; simpl; [apply forward_ret|].
  destruct (strptime_Ymd (fst row)); [|apply forward_raise].
  apply forward_bind; [exact IH|]. intros ds. apply forward_ret.
Qed.

Ltac step_forward :=
  repeat first
    [ apply forward_bind | apply forward_for_each | apply forward_ret | apply forward_raise
    | apply forward_print | apply forward_show | apply forward_input
    | apply forward_percentage | apply forward_days_of
    | match goal with
      | |- forall _, reads_forward _ => intro
      | |- reads_forward (if ?b then _ else _) => destruct b
      | |- reads_forward (match ?x with _ => _ end) => destruct x
      end ].

Lemma forward_dispatch (L : pylib) (db : database) (command : string) :
  reads_forward
    (if String.eqb command "1" then
       partial_station_name <- input (String LF "Enter partial station name (wildcards _ and %): ") ;;
       find_station_names db partial_station_name
     else if String.eqb command "2" then
       station_name <- input (String LF "Enter the name of the station you would like to analyze: ") ;;
       ridership_percentages db station_name
     else if String.eqb command "3" then
       total_weekday_ridership db
     else if String.eqb command "4" then
       answer <- input (String LF "Enter a line color (e.g. Red or Yellow): ") ;;
       list_stops_by_line_and_direction db (title (strip answer))
     else if String.eqb command "5" then
       stops_for_each_color_by_direction db
     else if String.eqb command "6" then
       station_name <- input (String LF "Enter a station name (wildcards _ and %): ") ;;
       yearly_ridership db station_name
     else if String.eqb command "7" then
       station_name <- input (String LF "Enter a station name (wildcards _ and %): ") ;;
       monthly_ridership db station_name
     else if String.eqb command "8" then
       y <- input (String LF "Year to compare against? ") ;;
       daily_ridership_comparison db y
     else if String.eqb command "9" then
       answer <- input (String LF "Enter a latitude: ") ;;
       match py_float L answer with
       | None => raise ValueError
       | Some lat => stations_within_mile L db lat
       end
     else print (Text "**Error, unknown command, try again...")).
Proof.
  unfold find_station_names, ridership_percentages, total_weekday_ridership,
    list_stops_by_line_and_direction, stops_for_each_color_by_direction,
    yearly_ridership, yearly_report, monthly_ridership, monthly_report,
    daily_ridership_comparison, fetch_daily_ridership, daily_plot, stations_within_mile.
  step_forward.
Qed.

(** A round that returns has read at least the command. *)
Lemma command_round_reads (L : pylib) (db : database) (stdin stdin' : list string)
    (c : control) (o : list event) :
  command_round L db stdin = Ok c stdin' o -> (length stdin' < length stdin)%nat.
Proof.
  unfold command_round. destruct stdin as [|command rest]; [discriminate|].
  rewrite (bind_ok _ _ _ rest command [Prompt (String LF "Please enter a command (1-9, x to exit): ")])
    by reflexivity.
  destruct (String.eqb (lower command) "x").
  - simpl. intros H. inversion H. subst. simpl. lia.
  - intros H.
    match type of H with prefixed _ (?m rest) = _ =>
      assert (Hm : reads_forward m)
        by (apply forward_bind; [apply forward_dispatch|intros; apply forward_ret]);
      destruct (m rest) as [c' j o'|e o'] eqn:E; [|discriminate] end.
    apply Hm in E. inversion H; subst. simpl. lia.
Qed.

(** The loop comes to an end within one round more than there are lines. *)
Lemma command_loop_ends (L : pylib) (db : database) (fuel : nat) (stdin : list string) :
  (length stdin < fuel)%nat -> exists e, command_loop fuel L db stdin = Some e.
Proof.
  revert stdin. induction fuel as [|fuel IH]; intros stdin Hlen; [lia|].
  simpl. destruct (command_round L db stdin) as [[|] stdin' o|e o] eqn:E; eauto.
  apply command_round_reads in E.
  destruct (IH stdin') as [e He]; [lia|]. rewrite He. simpl. eauto.
Qed.

(** [main] always comes to an end. *)
Lemma main_ends (L : pylib) (db : database) (stdin : list string) :
  exists e, main L db stdin = Some e.
Proof.
  unfold main. destruct (print_stats db stdin) as [u stdin' o|e o]; eauto.
  destruct (command_loop_ends L db (S (length stdin')) stdin') as [e He]; [lia|].
  rewrite He. simpl. eauto.
Qed.

(** More rounds than needed change nothing. *)
Lemma command_loop_more (L : pylib) (db : database) (fuel : nat) (stdin : list string)
    (e : ending) :
  command_loop fuel L db stdin = Some e ->
  forall fuel', (fuel <= fuel')%nat -> command_loop fuel' L db stdin = Some e.
Proof.
  revert stdin e. induction fuel as [|fuel IH]; intros stdin e H fuel' Hle; [discriminate|].
  destruct fuel' as [|fuel']; [lia|]. simpl in *.
  destruct (command_round L db stdin) as [[|] stdin' o|x o]; auto.
  destruct (command_loop fuel L db stdin') as [e'|] eqn:E; [|discriminate].
  rewrite (IH _ _ E fuel') by lia. exact H.
Qed.

(** ** Failures and the command loop *)

Lemma command_round_break (L : pylib) (db : database) (stdin stdin' : list string)
    (o : list event) :
  command_round L db stdin = Ok Break stdin' o ->
  o = [Prompt (String LF "Please enter a command (1-9, x to exit): ")].
Proof.
  unfold command_round. destruct stdin as [|command rest]; [discriminate|].
  rewrite (bind_ok _ _ _ rest command [Prompt (String LF "Please enter a command (1-9, x to exit): ")])
    by reflexivity.
  destruct (String.eqb (lower command) "x").
  - simpl. intros H. now inversion H.
  - unfold bind. intros H.
    match type of H with prefixed _ (match ?r with _ => _ end) = _ => destruct r end;
      simpl in H; discriminate.
Qed.

(** C2, the claim as stated, fails for input that is no number: the text
    "abc" is not a float literal, [float] raises [ValueError], nothing catches
    it, and the program ends without running the commands that follow.  The
    same happens when the longitude is no number. *)
Lemma unparsable_number_ends_the_program :
  is_float_literal "abc" = false
  /\ (forall L,
        main L week_db ["9"; "abc"; "1"; "%"; "x"]
        = Some (Crashed ValueError
                  [Print (Text (String.append "** Welcome to CTA L analysis app **" (String LF "")));
                   Print (Text "General Statistics:");
                   Print (StatLine "  # of stations:" 1);
                   Print (StatLine "  # of stops:" 0);
                   Print (StatLine "  # of ride entries:" 7);
                   Print (DateRange "2020-01-01" "2020-01-07");
                   Print (StatLine "  Total ridership:" 728);
                   Prompt (String LF "Please enter a command (1-9, x to exit): ");
                   Prompt (String LF "Enter a latitude: ")]))
  /\ (forall L,
        between 40 (py_strtod L "41.9") 43 = true ->
        command_loop 5 L week_db ["9"; "41.9"; "abc"; "1"; "%"; "x"]
        = Some (Crashed ValueError
                  [Prompt (String LF "Please enter a command (1-9, x to exit): ");
                   Prompt (String LF "Enter a latitude: ");
                   Prompt "Enter a longitude: "])).
Proof.
  split; [reflexivity|]. split.
  - intros L. reflexivity.
  - intros L H. simpl. unfold command_round, bind. simpl.
    unfold py_float. simpl. unfold stations_within_mile, bind. rewrite H. reflexivity.
Qed.

(** C2, amended: whenever a round of the command loop reports a failure
    (nothing found, several stations found, a coordinate out of bounds, an
    unknown line, direction or command), the round returns to the loop, which
    goes on with the next command on the unread input.  Input that is no
    number is not such a failure: it raises an exception. *)
Theorem reported_failure_returns_to_the_loop (L : pylib) (db : database)
    (stdin : list string) (l : line) (f : failure) :
  In (Print l) (events (command_round L db stdin)) ->
  report_of l = Some f ->
  exists stdin' o,
    command_round L db stdin = Ok Continue stdin' o
    /\ (length stdin' < length stdin)%nat
    /\ forall fuel,
         command_loop (S fuel) L db stdin
         = option_map (after o) (command_loop fuel L db stdin').
Proof.
  intros Hin Hf.
  destruct (command_round_tidy L db stdin) as [(c & stdin' & o & H)|Hq].
  - exists stdin', o. destruct c.
    + split; [exact H|]. split; [now apply command_round_reads in H|].
      intros fuel. simpl. now rewrite H.
    + exfalso. rewrite H in Hin. simpl in Hin.
      rewrite (command_round_break _ _ _ _ _ H) in Hin.
      destruct Hin as [Hin|[]]. discriminate.
  - exfalso. rewrite (Hq l Hin) in Hf. discriminate.
Qed.

Lemma unknown_station_returns_to_the_loop :
  report_of (Text "**No station found...") = Some NotFound
  /\ forall L,
       In (Print (Text "**No station found..."))
          (events (command_round L week_db ["6"; "Nowhere"; "x"]))
       /\ exists stdin' o,
            command_round L week_db ["6"; "Nowhere"; "x"] = Ok Continue stdin' o
            /\ (length stdin' < 3)%nat
            /\ forall fuel,
                 command_loop (S fuel) L week_db ["6"; "Nowhere"; "x"]
                 = option_map (after o) (command_loop fuel L week_db stdin').
Proof.
  split; [reflexivity|]. intros L.
  assert (Hin : In (Print (Text "**No station found..."))
                   (events (command_round L week_db ["6"; "Nowhere"; "x"])))
    by (simpl; auto).
  split; [exact Hin|].
  exact (reported_failure_returns_to_the_loop L week_db ["6"; "Nowhere"; "x"]
           (Text "**No station found...") NotFound Hin eq_refl).
Defined.

(** ** Floats *)






(** ** Stations within a mile *)





(** ** The statements at sample data *)

Lemma one_station_or_a_report_main_db :
  yearly_ridership main_db "Nowhere" ["n"] = Ok tt ["n"] [Print (Text "**No station found...")]
  /\ monthly_ridership main_db "%Main" ["n"]
     = Ok tt ["n"] [Print (Text "**Multiple stations found...")]
  /\ yearly_ridership main_db "Main" ["n"] = yearly_report main_db "Main" ["n"]
  /\ fetch_daily_ridership main_db "2020" "Belmont" ["n"]
     = Ok (Some (41320, "Belmont-North Main", q_daily_ridership main_db 41320 "2020")) ["n"] []
  /\ daily_ridership_comparison main_db "2020" ["Belmont"; "Main"; "n"]
     = Ok tt ["n"] [Prompt (String LF "Enter station 1 (wildcards _ and %): ");
                    Prompt (String LF "Enter station 2 (wildcards _ and %): ");
                    Print (Text "**Multiple stations found...")].
Proof.
  destruct (one_station_or_a_report main_db "Nowhere" "2020" ["n"])
    as (Hnone & _).
  destruct (one_station_or_a_report main_db "%Main" "2020" ["n"])
    as (_ & _ & _ & _ & Hmany & _).
  destruct (one_station_or_a_report main_db "Main" "2020" ["n"])
    as (_ & _ & Hone & _ & _ & _ & _ & _ & _ & _ & Hsecond & _).
  destruct (one_station_or_a_report main_db "Belmont" "2020" ["n"])
    as (_ & _ & _ & _ & _ & _ & _ & _ & Hfound & _).
  split; [exact (Hnone eq_refl)|].
  split; [apply Hmany; simpl; lia|].
  split; [exact (Hone "Main" eq_refl)|].
  split; [exact (Hfound 41320 "Belmont-North Main" eq_refl)|].
  exact (Hsecond "Belmont" _ (Text "**Multiple stations found...") eq_refl eq_refl).
Defined.


(* ================================================================== *)
(** * Further properties of the commands *)

(** ** Totals of grouped results *)

Lemma zsum_concat (ls : list (list Z)) : zsum (concat ls) = zsum (map zsum ls).
Proof. induction ls as [|l ls IH]; simpl; [reflexivity|]. now rewrite zsum_app, IH. Qed.

(** Summing the sums of the groups is summing all rows. *)
Lemma grouped_sums {K K' R : Type} (eqb : K -> K -> bool) (key : R -> K) (h : R -> Z)
    (lab : K * list R -> K') (leb : K' * Z -> K' * Z -> bool) (rows : list R) :
  (forall a b, eqb a b = true <-> a = b) ->
  zsum (map snd (order_by leb
                   (map (fun g => (lab g, zsum (map h (snd g)))) (group_by eqb key rows))))
  = zsum (map h rows).
Proof.
  intros Heq.
  rewrite <- (zsum_perm _ _ (Permutation_map snd (order_by_perm leb _))).
  rewrite map_map. simpl.
  rewrite <- (zsum_perm _ _ (Permutation_map h
                (grouped_rows _ _ _ _ (group_by_grouped eqb key Heq rows)))).
  rewrite concat_map, zsum_concat, !map_map. reflexivity.
Qed.

Lemma filter_nil_iff {A : Type} (f : A -> bool) (l : list A) :
  filter f l = [] <-> forall a, In a l -> f a = false.
Proof.
  split; [|apply filter_none].
  intros H a Ha. destruct (f a) eqn:E; [|reflexivity].
  assert (Hin : In a (filter f l)) by now apply filter_In.
  now rewrite H in Hin.
Qed.

(** ** Searching stations by name *)

(** X1: the search lists every station whose name matches the pattern,
    once, in ascending order of name; it prints "**No stations found..."
    exactly when no station matches. *)
Theorem station_search_lists_the_matches (db : database) (p : string)
    (stdin : list string) :
  let rows := q_find_station_names db p in
  Permutation rows
    (map (fun s => (Station_ID s, Station_Name s))
       (filter (fun s => like p (Station_Name s)) (Stations db)))
  /\ StronglySorted (fun a b => str_leb (snd a) (snd b) = true) rows
  /\ (rows = [] <-> forall s, In s (Stations db) -> like p (Station_Name s) = false)
  /\ (rows = [] ->
      find_station_names db p stdin = Ok tt stdin [Print (Text "**No stations found...")])
  /\ (rows <> [] ->
      find_station_names db p stdin
      = Ok tt stdin (map (fun row => Print (StationLine (fst row) (snd row))) rows)).
Proof.
  intros rows. unfold rows, q_find_station_names. repeat split.
  - symmetry. apply order_by_perm.
  - apply (order_by_sorted (fun a b : Z * string => str_leb (snd a) (snd b))).
    + intros a b. apply str_leb_total.
    + intros a b c. apply str_leb_trans.
  - intros H. apply order_by_nil, map_eq_nil in H. now apply filter_nil_iff.
  - intros H. apply filter_nil_iff in H. now rewrite H.
  - intros H. unfold find_station_names, q_find_station_names. now rewrite H.
  - intros H. unfold find_station_names, q_find_station_names.
    destruct (order_by _ _) as [|row rows'] eqn:E; [contradiction|].
    apply for_each_print.
Qed.

(** ** Letter case in patterns *)

Lemma lower_ascii_percent (c : ascii) :
  Ascii.eqb (lower_ascii c) "%" = Ascii.eqb c "%".
Proof. destruct c as [[] [] [] [] [] [] [] []]; reflexivity. Qed.

Lemma lower_ascii_underscore (c : ascii) :
  Ascii.eqb (lower_ascii c) "_" = Ascii.eqb c "_".
Proof. destruct c as [[] [] [] [] [] [] [] []]; reflexivity. Qed.

(** A pattern matches what its lower-case form matches. *)
Lemma like_chars_lower (p s : list ascii) :
  like_chars (map lower_ascii p) s = like_chars p s.
Proof.
  revert s. induction p as [|c p IH]; intros s; [reflexivity|].
  destruct (Ascii.eqb c "%") eqn:Ep.
  - apply Ascii.eqb_eq in Ep. subst c. change (map lower_ascii ("%"%char :: p))
      with ("%"%char :: map lower_ascii p).
    induction s as [|d s IHs]; rewrite (like_percent p), (like_percent (map lower_ascii p)).
    + now rewrite IH.
    + now rewrite IH, IHs.
  - simpl. rewrite lower_ascii_percent, lower_ascii_underscore, Ep, lower_ascii_idem.
    destruct (Ascii.eqb c "_"); destruct s as [|d s]; try reflexivity; now rewrite IH.
Qed.

Lemma like_same_letters (p p' s : string) : lower p = lower p' -> like p s = like p' s.
Proof.
  intros H. unfold like.
  rewrite <- (like_chars_lower (chars p)), <- (like_chars_lower (chars p')).
  f_equal. unfold lower in H.
  rewrite <- (chars_text (map lower_ascii (chars p))), H. apply chars_text.
Qed.

(** X2: the letter case of a pattern does not matter: two patterns with the
    same letters give the same station search, the same yearly report and the
    same monthly report. *)
Theorem pattern_case_does_not_matter (db : database) (p p' : string)
    (stdin : list string) :
  lower p = lower p' ->
  find_station_names db p stdin = find_station_names db p' stdin
  /\ yearly_ridership db p stdin = yearly_ridership db p' stdin
  /\ monthly_ridership db p stdin = monthly_ridership db p' stdin.
Proof.
  intros H.
  assert (Hf : filter (fun s => like p (Station_Name s)) (Stations db)
               = filter (fun s => like p' (Station_Name s)) (Stations db))
    by (apply filter_ext; intros s; now apply like_same_letters).
  unfold find_station_names, q_find_station_names, yearly_ridership, monthly_ridership,
    q_station_names_like.
  now rewrite Hf.
Qed.

Lemma pattern_case_main_db :
  lower "mAiN" = lower "Main"
  /\ find_station_names main_db "mAiN" [] = find_station_names main_db "Main" []
  /\ yearly_ridership main_db "mAiN" [] = yearly_ridership main_db "Main" []
  /\ monthly_ridership main_db "mAiN" [] = monthly_ridership main_db "Main" [].
Proof.
  split; [reflexivity|].
  exact (pattern_case_does_not_matter main_db "mAiN" "Main" [] eq_refl).
Defined.

(** ** Sums of rider counts *)



(** ** Shares by type of day, continued *)







Lemma group_by_nil {K R : Type} (eqb : K -> K -> bool) (key : R -> K) (rows : list R) :
  (forall a b, eqb a b = true <-> a = b) -> group_by eqb key rows = [] -> rows = [].
Proof.
  intros Heq H. destruct rows as [|r rows]; [reflexivity|].
  pose proof (grouped_all _ _ _ _ (group_by_grouped eqb key Heq (r :: rows)) r
                (or_introl eq_refl)) as Hin.
  now rewrite H in Hin.
Qed.

(** X4: the command prints "**No data found..." and nothing else exactly
    when no ridership entry belongs to a station with exactly the given name;
    the name is compared as it is, letter case included. *)
Theorem no_data_means_no_entry_of_that_name (db : database) (station_name : string)
    (stdin : list string) :
  (q_ridership_percentages db station_name = [] <->
   forall r s, In r (Ridership db) -> In s (Stations db) ->
               Ride_Station_ID r = Station_ID s -> Station_Name s <> station_name)
  /\ (q_ridership_percentages db station_name = [] ->
      ridership_percentages db station_name stdin
      = Ok tt stdin [Print (Text "**No data found...")])
  /\ (q_ridership_percentages db station_name <> [] ->
      exists o, events (ridership_percentages db station_name stdin)
                = Print (Text (String.append "Percentage of ridership for the "
                                 (String.append station_name " station:"))) :: o).
Proof.
  split; [|split].
  - unfold q_ridership_percentages. split.
    + intros H r s Hr Hs Hon Hname.
      apply order_by_nil, map_eq_nil, group_by_nil in H; [|apply String.eqb_eq].
      assert (Hin : In (r, s) (filter (fun rs => String.eqb (Station_Name (snd rs)) station_name)
                                      (ridership_join db))).
      { apply filter_In. split; [|now apply String.eqb_eq].
        apply join_in. repeat split; auto. now apply Z.eqb_eq. }
      now rewrite H in Hin.
    + intros H.
      assert (Hnil : filter (fun rs => String.eqb (Station_Name (snd rs)) station_name)
                            (ridership_join db) = []).
      { apply filter_nil_iff. intros [r s] Hin. simpl.
        apply join_in in Hin as (Hr & Hs & Hon). apply Z.eqb_eq in Hon.
        apply String.eqb_neq. now apply (H r s). }
      now rewrite Hnil.
  - intros H. unfold ridership_percentages. now rewrite H.
  - intros H. unfold ridership_percentages.
    destruct (q_ridership_percentages db station_name) as [|row rows]; [contradiction|].
    unfold bind at 1. unfold print at 1.
    match goal with |- context [match ?r with _ => _ end] => destruct r end;
      simpl; eauto.
Qed.

(** ** Weekday ridership, continued *)







(** ** Stops per colour and direction, continued *)

Lemma str_leb_antisym (a b : string) : str_leb a b = true -> str_leb b a = true -> a = b.
Proof. apply String.leb_antisym. Qed.


Lemma pair_leb_total (a b : string * string) : pair_leb a b = true \/ pair_leb b a = true.
Proof.
  unfold pair_leb. rewrite (String.eqb_sym (fst b)).
  destruct (String.eqb (fst a) (fst b)); apply str_leb_total.
Qed.

Lemma pair_leb_trans (a b c : string * string) :
  pair_leb a b = true -> pair_leb b c = true -> pair_leb a c = true.
Proof.
  unfold pair_leb.
  destruct (String.eqb_spec (fst a) (fst b)) as [Hab|Hab],
           (String.eqb_spec (fst b) (fst c)) as [Hbc|Hbc],
           (String.eqb_spec (fst a) (fst c)) as [Hac|Hac]; intros H1 H2;
    try congruence; eauto using str_leb_trans.
  exfalso. apply Hab. rewrite Hac in H1 |- *. now apply str_leb_antisym.
Qed.

(** X6: whatever the database, the command for the number of stops per
    colour and direction raises nothing; its rows are in ascending order of
    colour and, within a colour, of direction, and no pair is listed twice. *)
Theorem stop_distribution_is_ordered_and_total (db : database) (stdin : list string) :
  let results := q_stops_by_color_direction db in
  let total_stops := Z.of_nat (length (Stops db)) in
  stops_for_each_color_by_direction db stdin
  = Ok tt stdin
      (Print (Text "Number of Stops For Each Color By Direction")
       :: map (fun row =>
                 Print (ColorLine (fst (fst row)) (snd (fst row)) (snd row)
                          (percent (snd row) total_stops)))
              results)
  /\ StronglySorted (fun a b => pair_leb (fst a) (fst b) = true) results
  /\ NoDup (map fst results)
  /\ forall row, In row results -> 1 <= snd row.
Proof.
  intros results total_stops. split; [|split; [|split]].
  - unfold stops_for_each_color_by_direction. fold results total_stops.
    unfold bind at 1. unfold print at 1.
    destruct (Z.eq_dec total_stops 0) as [Hz|Hnz].
    + assert (Hnil : results = []).
      { apply no_stops_no_rows, length_zero_iff_nil. unfold total_stops in Hz. lia. }
      now rewrite Hnil.
    + now rewrite (for_each_percentage snd total_stops
                     (fun row pct => ColorLine (fst (fst row)) (snd (fst row)) (snd row) pct)).
  - apply (order_by_sorted (fun a b : string * string * Z => pair_leb (fst a) (fst b))).
    + intros a b. apply pair_leb_total.
    + intros a b c. apply pair_leb_trans.
  - apply (grouped_query_keys pair_eqb _ (fun rs => Z.of_nat (length rs))), pair_eqb_eq.
  - intros [k v] Hrow. simpl.
    apply (grouped_query_row pair_eqb _ (fun rs => Z.of_nat (length rs))) in Hrow
      as [-> Hne]; [|apply pair_eqb_eq].
    destruct (filter _ _); [contradiction|simpl; lia].
Qed.

(** ** Series of sums *)

(** A query that groups rows by a text, sums a column per group and orders by
    the text: one row per text that occurs, in ascending order, each with the
    sum over the rows of its text; nothing is lost and nothing invented. *)
Lemma series_of_sums {R : Type} (key : R -> string) (h : R -> Z) (rows : list R) :
  let series :=
    order_by (fun a b : string * Z => str_leb (fst a) (fst b))
      (map (fun g => (fst g, zsum (map h (snd g)))) (group_by String.eqb key rows)) in
  NoDup (map fst series)
  /\ StronglySorted by_text series
  /\ (forall k, In k (map fst series) <-> exists r, In r rows /\ key r = k)
  /\ (forall k v, In (k, v) series ->
        v = zsum (map h (filter (fun r => String.eqb (key r) k) rows)))
  /\ zsum (map snd series) = zsum (map h rows).
Proof.
  intros series. split; [|split; [|split; [|split]]].
  - apply (grouped_query_keys String.eqb key (fun rs => zsum (map h rs))), String.eqb_eq.
  - apply order_by_text_sorted.
  - intros k. split.
    + intros Hk. apply in_map_iff in Hk as ([k' v] & Hk & Hin). simpl in Hk. subst k'.
      apply (grouped_query_row String.eqb key (fun rs => zsum (map h rs))) in Hin
        as [_ Hne]; [|apply String.eqb_eq].
      destruct (filter _ rows) as [|r l] eqn:E; [contradiction|].
      assert (Hr : In r (filter (fun r => String.eqb (key r) k) rows))
        by (rewrite E; now left).
      apply filter_In in Hr as [Hr Hk]. apply String.eqb_eq in Hk. eauto.
    + intros (r & Hr & <-).
      apply (grouped_query_complete String.eqb key (fun rs => zsum (map h rs))); auto.
      apply String.eqb_eq.
  - intros k v Hin.
    apply (grouped_query_row String.eqb key (fun rs => zsum (map h rs))) in Hin as [-> _];
      [reflexivity|apply String.eqb_eq].
  - apply (grouped_sums String.eqb key h fst), String.eqb_eq.
Qed.

Lemma plot_prompt_run (p : plot) (answer : string) (rest : list string) :
  (plot_input <- input (String LF "Plot? (y/n) ") ;;
   if String.eqb (lower plot_input) "y" then show p else ret tt) (answer :: rest)
  = Ok tt rest (Prompt (String LF "Plot? (y/n) ")
                :: if String.eqb (lower answer) "y" then [Show p] else []).
Proof.
  unfold bind, input. destruct (String.eqb (lower answer) "y"); reflexivity.
Qed.

(** ** Ridership per year *)

(** X7: the yearly series of a station name has one row for every calendar
    year in which the stations of that name have an entry and no row for any
    other year (years without entries are not filled with zeros); the rows
    are in ascending order of year; each total is the sum of the riders of
    that year's entries, and the totals add up to the riders of all entries.
    The report prints the series, asks whether to plot, and draws the chart
    only for the answer y or Y. *)
Theorem yearly_series_has_the_years_with_entries (db : database) (name : string) :
  let entries := filter (fun rs => String.eqb (Station_Name (snd rs)) name)
                   (ridership_join db) in
  let series := q_yearly_ridership db name in
  NoDup (map fst series)
  /\ StronglySorted by_text series
  /\ (forall y, In y (map fst series) <->
        exists rs, In rs entries /\ strftime_Y (Ride_Date (fst rs)) = y)
  /\ (forall y total, In (y, total) series ->
        total = riders (filter (fun rs => String.eqb (strftime_Y (Ride_Date (fst rs))) y)
                          entries))
  /\ zsum (map snd series) = riders entries
  /\ forall answer rest,
       yearly_report db name (answer :: rest)
       = Ok tt rest
           ([Print (Text (String.append "Yearly Ridership at " name))]
            ++ map (fun row => Print (YearLine (fst row) (snd row))) series
            ++ Prompt (String LF "Plot? (y/n) ")
               :: if String.eqb (lower answer) "y"
                  then [Show (LinePlot (String.append "Yearly Ridership at "
                                          (String.append name " Station"))
                                {| label := ""; xs := map fst series;
                                   ys := map snd series |})]
                  else []).
Proof.
  intros entries series.
  destruct (series_of_sums (fun rs : Ride * Station => strftime_Y (Ride_Date (fst rs)))
              (fun rs => Num_Riders (fst rs)) entries) as (H1 & H2 & H3 & H4 & H5).
  repeat split; auto.
  - apply H3.
  - apply H3.
  - intros answer rest. unfold yearly_report. fold series.
    rewrite (bind_ok _ _ _ (answer :: rest) tt
               [Print (Text (String.append "Yearly Ridership at " name))]) by reflexivity.
    rewrite (bind_ok _ _ _ (answer :: rest) tt _ (for_each_print _ _ _)).
    rewrite plot_prompt_run. reflexivity.
Qed.

(** ** Ridership per month *)

Lemma in_texts (x : string) (l : list string) :
  existsb (String.eqb x) l = true -> In x l.
Proof.
  intros H. apply existsb_exists in H as (y & Hy & Heq).
  apply String.eqb_eq in Heq. now subst.
Qed.

Lemma month_texts (m : Z) :
  1 <= m <= 12 ->
  In (pad2 m) ["01"; "02"; "03"; "04"; "05"; "06"; "07"; "08"; "09"; "10"; "11"; "12"].
Proof.
  intros H.
  assert (Hm : m = 1 \/ m = 2 \/ m = 3 \/ m = 4 \/ m = 5 \/ m = 6 \/ m = 7 \/ m = 8
               \/ m = 9 \/ m = 10 \/ m = 11 \/ m = 12) by lia.
  repeat (destruct Hm as [->|Hm]; [apply in_texts; vm_compute; reflexivity|]).
  subst. apply in_texts. vm_compute. reflexivity.
Qed.

(** X8: when every entry has a month between 1 and 12, the monthly series
    of a station name and a year has at most twelve rows, one for every month
    of that year with an entry, headed by the month's two-digit text, in
    ascending order; each total is the sum of the riders of that month's
    entries.  The year is compared as a text with the four-digit year of the
    entry, so a year text that no entry has gives an empty series. *)
Theorem monthly_series_has_at_most_twelve_rows (db : database) (name y : string) :
  (forall r, In r (Ridership db) -> 1 <= month (Ride_Date r) <= 12) ->
  let entries := filter (fun rs => String.eqb (Station_Name (snd rs)) name
                                   && String.eqb (strftime_Y (Ride_Date (fst rs))) y)
                   (ridership_join db) in
  let series := q_monthly_ridership db name y in
  (length series <= 12)%nat
  /\ NoDup (map fst series)
  /\ StronglySorted by_text series
  /\ (forall m, In m (map fst series) <->
        exists rs, In rs entries /\ strftime_m (Ride_Date (fst rs)) = m)
  /\ (forall m total, In (m, total) series ->
        total = riders (filter (fun rs => String.eqb (strftime_m (Ride_Date (fst rs))) m)
                          entries))
  /\ zsum (map snd series) = riders entries
  /\ ((forall r, In r (Ridership db) -> strftime_Y (Ride_Date r) <> y) -> series = []).
Proof.
  intros Hmonths entries series.
  destruct (series_of_sums (fun rs : Ride * Station => strftime_m (Ride_Date (fst rs)))
              (fun rs => Num_Riders (fst rs)) entries) as (H1 & H2 & H3 & H4 & H5).
  repeat split; auto.
  - rewrite <- (length_map fst).
    change 12%nat with (length ["01"; "02"; "03"; "04"; "05"; "06"; "07"; "08"; "09";
                                "10"; "11"; "12"]).
    apply NoDup_incl_length; [exact H1|].
    intros m Hm. apply H3 in Hm as ([r s] & Hin & <-).
    apply month_texts, Hmonths.
    apply filter_In in Hin as [Hin _]. now apply join_in in Hin as [Hin _].
  - apply H3.
  - apply H3.
  - intros Hyear. unfold series, q_monthly_ridership.
    assert (Hnil : entries = []).
    { apply filter_nil_iff. intros [r s] Hin. cbn [fst snd].
      apply join_in in Hin as (Hr & _). apply andb_false_iff. right.
      apply String.eqb_neq. now apply Hyear. }
    fold entries. now rewrite Hnil.
Qed.

Lemma monthly_series_main_db :
  (length (q_monthly_ridership main_db "Main" "2020") <= 12)%nat
  /\ q_monthly_ridership main_db "Main" "2020" = [("01", 70)]
  /\ q_monthly_ridership main_db "Main" "20" = [].
Proof.
  assert (Hm : forall r, In r (Ridership main_db) -> 1 <= month (Ride_Date r) <= 12)
    by (intros r [<-|[<-|[]]]; simpl; lia).
  split; [exact (proj1 (monthly_series_has_at_most_twelve_rows main_db "Main" "2020" Hm))|].
  split; reflexivity.
Defined.

(** ** Ridership per day *)

(** X9: the daily series of a station and a year has one row for every date
    on which the station has an entry in that year; entries of the same date
    are collapsed into one row with the sum of their riders, and the totals of
    the series add up to the riders of all these entries. *)
Theorem daily_series_sums_the_entries_of_a_day (db : database) (station_id : Z)
    (y : string) :
  let entries := filter (fun r => (Ride_Station_ID r =? station_id)
                                  && String.eqb (strftime_Y (Ride_Date r)) y)
                   (Ridership db) in
  let series := q_daily_ridership db station_id y in
  (forall d, In d (map fst series) <->
     exists r, In r entries /\ strftime_Ymd (Ride_Date r) = d)
  /\ (forall d total, In (d, total) series ->
        total = zsum (map Num_Riders
                        (filter (fun r => String.eqb (strftime_Ymd (Ride_Date r)) d) entries)))
  /\ zsum (map snd series) = zsum (map Num_Riders entries)
  /\ (length series <= length entries)%nat.
Proof.
  intros entries series.
  destruct (series_of_sums (fun r : Ride => strftime_Ymd (Ride_Date r)) Num_Riders entries)
    as (H1 & H2 & H3 & H4 & H5).
  repeat split; auto.
  - apply H3.
  - apply H3.
  - assert (Hlen : (length (map fst series)
                     <= length (map (fun r => strftime_Ymd (Ride_Date r)) entries))%nat).
    { apply NoDup_incl_length; [exact H1|].
      intros d Hd. apply H3 in Hd as (r & Hr & <-).
      now apply (in_map (fun r => strftime_Ymd (Ride_Date r))). }
    now rewrite !length_map in Hlen.
Qed.

(** ** Dates as texts *)

Lemma digit_char_digit (n : Z) :
  is_digit (digit_char n) = true /\ digit_val (digit_char n) = n mod 10.
Proof.
  unfold digit_char.
  assert (Hk : n mod 10 = 0 \/ n mod 10 = 1 \/ n mod 10 = 2 \/ n mod 10 = 3
               \/ n mod 10 = 4 \/ n mod 10 = 5 \/ n mod 10 = 6 \/ n mod 10 = 7
               \/ n mod 10 = 8 \/ n mod 10 = 9)
    by (pose proof (Z.mod_pos_bound n 10); lia).
  repeat (destruct Hk as [Hk|Hk]; [rewrite Hk; split; reflexivity|]).
  rewrite Hk. split; reflexivity.
Qed.

Lemma four_digits (y : Z) :
  0 <= y <= 9999 ->
  1000 * ((y / 1000) mod 10) + 100 * ((y / 100) mod 10) + 10 * ((y / 10) mod 10) + y mod 10
  = y.
Proof. intros H. Z.div_mod_to_equations. lia. Qed.

Lemma two_digits (m : Z) : 0 <= m <= 99 -> 10 * ((m / 10) mod 10) + m mod 10 = m.
Proof. intros H. Z.div_mod_to_equations. lia. Qed.

Lemma days_in_month_bounds (y m : Z) : 28 <= days_in_month y m <= 31.
Proof.
  unfold days_in_month.
  destruct (m =? 2); [destruct (is_leap y); lia|].
  destruct ((m =? 4) || (m =? 6) || (m =? 9) || (m =? 11)); lia.
Qed.

(** The text of a date is read back as the date. *)
Lemma strptime_strftime (d : date) : valid_date d -> strptime_Ymd (strftime_Ymd d) = Some d.
Proof.
  destruct d as [y m dd]. unfold valid_date. cbn [year month day].
  intros (Hy & Hm & Hd). pose proof (days_in_month_bounds y m) as Hb.
  unfold strptime_Ymd, strftime_Ymd, pad4, pad2, text, chars.
  cbn [year month day string_of_list_ascii String.append list_ascii_of_string forallb].
  destruct (digit_char_digit (y / 1000)) as [-> ->], (digit_char_digit (y / 100)) as [-> ->],
    (digit_char_digit (y / 10)) as [-> ->], (digit_char_digit y) as [-> ->],
    (digit_char_digit (m / 10)) as [-> ->], (digit_char_digit m) as [-> ->],
    (digit_char_digit (dd / 10)) as [-> ->], (digit_char_digit dd) as [-> ->].
  cbn [andb]. change (Ascii.eqb "-" "-") with true. cbv iota.
  rewrite four_digits, !two_digits by lia.
  replace ((1 <=? y) && (1 <=? m) && (m <=? 12) && (1 <=? dd) && (dd <=? days_in_month y m))
    with true; [reflexivity|].
  symmetry. rewrite !andb_true_iff, !Z.leb_le. lia.
Qed.

Lemma day_of_year_bounds (d : date) :
  valid_date d -> 1 <= day_of_year d <= if is_leap (year d) then 366 else 365.
Proof.
  destruct d as [y m dd]. unfold valid_date, day_of_year. cbn [year month day].
  intros (Hy & Hm & Hd).
  assert (Hcase : m = 1 \/ m = 2 \/ m = 3 \/ m = 4 \/ m = 5 \/ m = 6 \/ m = 7 \/ m = 8
                  \/ m = 9 \/ m = 10 \/ m = 11 \/ m = 12) by lia.
  unfold days_before_month, days_in_month in *.
  set (leap := is_leap y) in *. clearbody leap.
  repeat (destruct Hcase as [Hcase|Hcase]; [|]);
    subst m; destruct leap;
    match type of Hd with _ <= _ <= ?u =>
      let v := eval vm_compute in u in change u with v in Hd end;
    match goal with |- context [zsum ?l] =>
      let v := eval vm_compute in (zsum l) in change (zsum l) with v end;
    cbv iota; lia.
Qed.

(** X10: the text that the daily query gives a date is read back by the
    chart as the same date, for every date of the calendar with a year from 1
    to 9999; the day of the year computed from it lies between 1 and 365, or
    366 in a leap year, and is 1 for the first of January. *)
Theorem date_texts_round_trip (d : date) :
  valid_date d ->
  strptime_Ymd (strftime_Ymd d) = Some d
  /\ 1 <= day_of_year d <= (if is_leap (year d) then 366 else 365)
  /\ (month d = 1 -> day_of_year d = day d).
Proof.
  intros Hd. split; [now apply strptime_strftime|]. split; [now apply day_of_year_bounds|].
  intros Hm. unfold day_of_year. rewrite Hm. reflexivity.
Qed.

Lemma date_texts_leap_day :
  valid_date {| year := 2020; month := 2; day := 29 |}
  /\ strptime_Ymd "2020-02-29" = Some {| year := 2020; month := 2; day := 29 |}
  /\ 1 <= day_of_year {| year := 2020; month := 2; day := 29 |} <= 366.
Proof.
  assert (Hv : valid_date {| year := 2020; month := 2; day := 29 |})
    by (unfold valid_date; cbn [year month day];
        change (days_in_month 2020 2) with 29; lia).
  split; [exact Hv|].
  destruct (date_texts_round_trip _ Hv) as (Hparse & Hday & _).
  split; [exact Hparse|exact Hday].
Defined.

(** ** The chart of the daily comparison, continued *)

(** Reading the dates of a series either gives one day per row or raises
    [ValueError]; it prints nothing and reads nothing. *)
Lemma days_of_result (data : list (string * Z)) (stdin : list string) :
  (exists days, days_of data stdin = Ok days stdin [] /\ length days = length data)
  \/ days_of data stdin = Raise ValueError [].
Proof.
  induction data as [|row data IH]; simpl.
  - left. now exists [].
  - destruct (strptime_Ymd (fst row)); [|now right].
    unfold bind. destruct IH as [(days & -> & Hlen)| ->]; [|now right].
    left. eexists. split; [reflexivity|]. simpl. now rewrite Hlen.
Qed.

Lemma days_of_dated (data : list (string * Z)) (stdin : list string) :
  (forall row, In row data -> exists d, valid_date d /\ fst row = strftime_Ymd d) ->
  exists days, days_of data stdin = Ok days stdin [] /\ Forall2 dated data days.
Proof.
  induction data as [|row data IH]; intros H.
  - exists []. split; [reflexivity|constructor].
  - destruct (H row (or_introl eq_refl)) as (d & Hd & Hrow).
    destruct IH as (days & Hdays & Hall); [intros r Hr; apply H; now right|].
    exists (day_of_year d :: days). split.
    + cbn [days_of]. rewrite Hrow, (strptime_strftime d Hd). unfold bind. now rewrite Hdays.
    + constructor; [now exists d|exact Hall].
Qed.

Lemma daily_series_dated (db : database) (station_id : Z) (y : string) (row : string * Z) :
  well_dated db -> In row (q_daily_ridership db station_id y) ->
  exists d, valid_date d /\ fst row = strftime_Ymd d.
Proof.
  intros Hdb Hrow. apply (in_map fst) in Hrow. unfold q_daily_ridership in Hrow.
  destruct (series_of_sums (fun r : Ride => strftime_Ymd (Ride_Date r)) Num_Riders
              (filter (fun r => (Ride_Station_ID r =? station_id)
                                && String.eqb (strftime_Y (Ride_Date r)) y)
                 (Ridership db))) as (_ & _ & H3 & _).
  apply H3 in Hrow as (r & Hr & Heq).
  apply filter_In in Hr as [Hr _]. exists (Ride_Date r). split; [now apply Hdb|now symmetry].
Qed.

Lemma dated_same_texts (data1 data2 : list (string * Z)) (days : list Z) :
  Forall2 dated data1 days -> map fst data1 = map fst data2 -> Forall2 dated data2 days.
Proof.
  intros H. revert data2. induction H as [|row n data days Hrow Hall IH]; intros data2 Heq.
  - destruct data2; [constructor|discriminate].
  - destruct data2 as [|row2 data2]; [discriminate|]. simpl in Heq. inversion Heq as [[Hfst Htl]].
    constructor; [|now apply IH].
    destruct Hrow as (d & Hd & Htext & Hn). exists d. now rewrite <- Hfst.
Qed.

(** X11: what asking for the chart of the comparison leads to.  When the
    two series differ in length, or when the first one is empty, the command
    raises [ValueError] and draws nothing.  Otherwise, when all entries carry
    dates of the calendar, one chart is drawn: both series get the days of the
    year of the first station's dates, the ticks run from 0 in steps of 50 up
    to the last of these days; and when the two stations have entries on the
    same dates, every rider count of either series is drawn at the day of the
    year of its own date. *)
Theorem comparison_chart_outcomes (db : database) (y name1 name2 : string)
    (id1 id2 : Z) (stdin : list string) :
  well_dated db ->
  let data1 := q_daily_ridership db id1 y in
  let data2 := q_daily_ridership db id2 y in
  let run := daily_plot y name1 name2 data1 data2 stdin in
  (length data1 <> length data2 -> run = Raise ValueError [])
  /\ (data1 = [] -> run = Raise ValueError [])
  /\ (length data1 = length data2 -> data1 <> [] ->
      exists day days,
        Forall2 dated data1 (day :: days)
        /\ (map fst data1 = map fst data2 -> Forall2 dated data2 (day :: days))
        /\ run = Ok tt stdin
                   [Show (DailyPlot (String.append "Ridership Each Day of " y)
                            {| label := name1; xs := day :: days; ys := map snd data1 |}
                            {| label := name2; xs := day :: days; ys := map snd data2 |}
                            (py_range 0 (zmax day days + 1) 50))]).
Proof.
  intros Hdb data1 data2 run.
  destruct (days_of_dated data1 stdin) as (days & Hdays & Hall);
    [intros row Hrow; now apply (daily_series_dated db id1 y)|].
  pose proof (Forall2_length Hall) as Hlen.
  unfold run, daily_plot. rewrite (bind_ok _ _ _ _ _ _ Hdays), prefixed_nil.
  rewrite length_map, <- Hlen.
  split; [|split].
  - intros Hne. apply Nat.eqb_neq in Hne. now rewrite Hne.
  - intros Hnil. rewrite Hnil in *. destruct days; [|discriminate].
    now destruct (negb _).
  - intros Heq Hne. rewrite (proj2 (Nat.eqb_eq _ _) Heq).
    destruct days as [|day days]; [destruct data1; [contradiction|discriminate]|].
    exists day, days. split; [exact Hall|]. split; [now apply dated_same_texts|reflexivity].
Qed.

Lemma week_db_well_dated : well_dated week_db.
Proof.
  intros r Hr. simpl in Hr.
  repeat (destruct Hr as [<-|Hr]; [unfold valid_date; repeat split; vm_compute; discriminate|]).
  contradiction.
Qed.

Lemma comparison_chart_week_db :
  daily_plot "2020" "Cicero-Cermak" "Cicero-Cermak"
    (q_daily_ridership week_db 40420 "2020") (q_daily_ridership week_db 40420 "2020") []
  = Ok tt []
      [Show (DailyPlot "Ridership Each Day of 2020"
               {| label := "Cicero-Cermak"; xs := [1; 2; 3; 4; 5; 6; 7];
                  ys := [101; 102; 103; 104; 105; 106; 107] |}
               {| label := "Cicero-Cermak"; xs := [1; 2; 3; 4; 5; 6; 7];
                  ys := [101; 102; 103; 104; 105; 106; 107] |}
               [0])]
  /\ daily_plot "1999" "Cicero-Cermak" "Cicero-Cermak"
       (q_daily_ridership week_db 40420 "1999") (q_daily_ridership week_db 40420 "1999") []
     = Raise ValueError [].
Proof.
  split; [reflexivity|].
  apply (comparison_chart_outcomes week_db "1999" "Cicero-Cermak" "Cicero-Cermak"
           40420 40420 [] week_db_well_dated).
  reflexivity.
Defined.

(** ** Stations within a mile, continued *)

(** X12: the proximity search checks its input in order.  A latitude outside
    [40, 43], a NaN included, prints the latitude message and nothing is
    asked.  Otherwise the longitude is asked: at the end of input the command
    raises [EOFError], a text that is no float literal raises [ValueError], and
    a longitude outside [-88, -87] prints the longitude message; in none of
    these cases a station is listed. *)
Theorem proximity_input_is_checked_in_order (L : pylib) (db : database) (latitude : float)
    (stdin : list string) :
  let run := stations_within_mile L db latitude stdin in
  (between 40 latitude 43 = false ->
     run = Ok tt stdin [Print (Text "**Latitude entered is out of bounds...")])
  /\ between 40 nan 43 = false
  /\ (between 40 latitude 43 = true ->
      (stdin = [] -> run = Raise EOFError [Prompt "Enter a longitude: "])
      /\ forall answer rest, stdin = answer :: rest ->
           (is_float_literal answer = false ->
              run = Raise ValueError [Prompt "Enter a longitude: "])
           /\ (is_float_literal answer = true ->
               between (-88) (py_strtod L answer) (-87) = false ->
               run = Ok tt rest [Prompt "Enter a longitude: ";
                                 Print (Text "**Longitude entered is out of bounds...")])).
Proof.
  intros run. unfold run, stations_within_mile. split; [|split; [reflexivity|]].
  - intros H. now rewrite H.
  - intros H. rewrite H. change (negb true) with false. cbv iota. split.
    + now intros ->.
    + intros answer rest ->.
      rewrite (bind_ok _ _ _ rest answer [Prompt "Enter a longitude: "]) by reflexivity.
      unfold py_float. split.
      * now intros ->.
      * intros -> Hlon. now rewrite Hlon.
Qed.





(** ** Input is read in order *)

Lemma in_order_ret {A : Type} (a : A) : reads_in_order (ret a).
Proof. intros i a' i' o H. inversion H. subst. now exists []. Qed.

Lemma in_order_raise {A : Type} (e : exn) : reads_in_order (@raise A e).
Proof. intros i a i' o H. discriminate. Qed.

Lemma in_order_print (l : line) : reads_in_order (print l).
Proof. intros i a i' o H. inversion H. subst. now exists []. Qed.

Lemma in_order_show (p : plot) : reads_in_order (show p).
Proof. intros i a i' o H. inversion H. subst. now exists []. Qed.

Lemma in_order_input (s : string) : reads_in_order (input s).
Proof. intros [|x i] a i' o H; inversion H. subst. now exists [a]. Qed.

Lemma in_order_bind {A B : Type} (m : M A) (f : A -> M B) :
  reads_in_order m -> (forall a, reads_in_order (f a)) -> reads_in_order (bind m f).
Proof.
  intros Hm Hf i b i'' o H. unfold bind in H.
  destruct (m i) as [a i' o1|e o1] eqn:E; [|discriminate].
  destruct (f a i') as [b' j o2|e o2] eqn:E'; [|discriminate].
  inversion H; subst. apply Hm in E as [r1 ->]. apply Hf in E' as [r2 ->].
  exists (r1 ++ r2). now rewrite app_assoc.
Qed.

Lemma in_order_for_each {A : Type} (f : A -> M unit) (l : list A) :
  (forall a, reads_in_order (f a)) -> reads_in_order (for_each f l).
Proof.
  intros Hf. induction l as [|a l IH]; simpl; [apply in_order_ret|].
  apply in_order_bind; auto.
Qed.

Lemma in_order_percentage (count total : Z) : reads_in_order (percentage count total).
Proof.
  unfold percentage. destruct (total =? 0); [apply in_order_raise|apply in_order_ret].
Qed.

Lemma in_order_days_of (data : list (string * Z)) : reads_in_order (days_of data).
Proof.
  induction data as [|row data IH]; simpl; [apply in_order_ret|].
  destruct (strptime_Ymd (fst row)); [|apply in_order_raise].
  apply in_order_bind; [exact IH|]. intros ds. apply in_order_ret.
Qed.

Ltac step_in_order :=
  repeat first
    [ apply in_order_bind | apply in_order_for_each | apply in_order_ret
    | apply in_order_raise | apply in_order_print | apply in_order_show
    | apply in_order_input | apply in_order_percentage | apply in_order_days_of
    | match goal with
      | |- forall _, reads_in_order _ => intro
      | |- reads_in_order (if ?b then _ else _) => destruct b
      | |- reads_in_order (match ?x with _ => _ end) => destruct x
      end ].

Lemma command_round_in_order (L : pylib) (db : database) :
  reads_in_order (command_round L db).
Proof.
  unfold command_round, find_station_names, ridership_percentages, total_weekday_ridership,
    list_stops_by_line_and_direction, stops_for_each_color_by_direction,
    yearly_ridership, yearly_report, monthly_ridership, monthly_report,
    daily_ridership_comparison, fetch_daily_ridership, daily_plot, stations_within_mile.
  step_in_order.
Qed.

(** A round ends the loop only on the line x, in either letter case. *)
Lemma command_round_exit (L : pylib) (db : database) (stdin stdin' : list string)
    (o : list event) :
  command_round L db stdin = Ok Break stdin' o ->
  exists command, stdin = command :: stdin' /\ lower command = "x".
Proof.
  unfold command_round. destruct stdin as [|command rest]; [discriminate|].
  rewrite (bind_ok _ _ _ rest command [Prompt (String LF "Please enter a command (1-9, x to exit): ")])
    by reflexivity.
  destruct (String.eqb_spec (lower command) "x") as [Hx|Hx].
  - simpl. intros H. inversion H. subst. eauto.
  - unfold bind. intros H.
    match type of H with prefixed _ (match ?r with _ => _ end) = _ => destruct r end;
      simpl in H; discriminate.
Qed.

Lemma command_loop_exit (L : pylib) (db : database) (fuel : nat) (stdin : list string)
    (out : list event) :
  command_loop fuel L db stdin = Some (Exited out) ->
  exists command, In command stdin /\ lower command = "x".
Proof.
  revert stdin out. induction fuel as [|fuel IH]; intros stdin out H; [discriminate|].
  simpl in H. destruct (command_round L db stdin) as [[|] stdin' o|e o] eqn:E.
  - destruct (command_loop fuel L db stdin') as [[out'|e out']|] eqn:E'; try discriminate.
    destruct (IH _ _ E') as (command & Hin & Hx).
    apply command_round_in_order in E as [read ->].
    exists command. split; [apply in_or_app; now right|exact Hx].
  - apply command_round_exit in E as (command & -> & Hx).
    exists command. split; [now left|exact Hx].
  - discriminate.
Qed.

Lemma print_stats_reads_nothing (db : database) (stdin stdin' : list string) (u : unit)
    (o : list event) :
  print_stats db stdin = Ok u stdin' o -> stdin' = stdin.
Proof.
  unfold print_stats, bind, print. destruct (q_date_range db); simpl; intros H;
    inversion H; reflexivity.
Qed.

(** X14: for every input the program comes to an end.  It ends by leaving
    the command loop only if one of the lines it was given is x or X; on any
    other input, one that runs out included, it ends with an uncaught
    exception. *)
Theorem the_program_ends_and_exits_only_on_x (L : pylib) (db : database)
    (stdin : list string) :
  (exists e, main L db stdin = Some e)
  /\ (forall out, main L db stdin = Some (Exited out) ->
        exists command, In command stdin /\ lower command = "x")
  /\ ((forall command, In command stdin -> lower command <> "x") ->
      exists e out, main L db stdin = Some (Crashed e out)).
Proof.
  assert (Hexit : forall out, main L db stdin = Some (Exited out) ->
                    exists command, In command stdin /\ lower command = "x").
  { intros out H. unfold main in H.
    destruct (print_stats db stdin) as [u stdin' o|e o] eqn:E; [|discriminate].
    apply print_stats_reads_nothing in E. subst stdin'.
    destruct (command_loop _ L db stdin) as [[out'|e out']|] eqn:E'; try discriminate.
    now apply command_loop_exit in E'. }
  split; [apply main_ends|]. split; [exact Hexit|].
  intros Hno. destruct (main_ends L db stdin) as [[out|e out] H]; [|eauto].
  destruct (Hexit out H) as (command & Hin & Hx). now apply Hno in Hin.
Qed.

(** ** The statistics at the start *)






(** ** Command 4 as the command loop runs it *)

Lemma command_4_run (L : pylib) (db : database) (colour : string) (rest : list string) :
  command_round L db ("4" :: colour :: rest)
  = prefixed [Prompt (String LF "Please enter a command (1-9, x to exit): ");
              Prompt (String LF "Enter a line color (e.g. Red or Yellow): ")]
      ((list_stops_by_line_and_direction db (title (strip colour)) ;; ret Continue) rest).
Proof.
  unfold command_round.
  rewrite (bind_ok _ _ _ (colour :: rest) "4" [Prompt (String LF "Please enter a command (1-9, x to exit): ")])
    by reflexivity.
  change (String.eqb (lower "4") "x") with false.
  change (String.eqb "4" "1") with false.
  change (String.eqb "4" "2") with false.
  change (String.eqb "4" "3") with false.
  change (String.eqb "4" "4") with true.
  cbv iota. unfold bind, input. cbv beta iota.
  destruct (list_stops_by_line_and_direction db (title (strip colour)) rest); reflexivity.
Qed.

Lemma title_title (s : string) : title (title s) = title s.
Proof. apply title_same_letters, lower_title. Qed.

Lemma upper_same_direction (db : database) (c d d' : string) (rest : list string) :
  upper d = upper d' ->
  q_line_ids db (title c) <> [] ->
  list_stops_by_line_and_direction db c (d :: rest)
  = list_stops_by_line_and_direction db c (d' :: rest).
Proof.
  intros Hd Hline. unfold list_stops_by_line_and_direction.
  destruct (q_line_ids db (title c)) as [|id ids]; [contradiction|].
  rewrite (bind_ok _ _ _ rest d [Prompt "Enter a direction (N/S/W/E): "]) by reflexivity.
  rewrite (bind_ok _ _ _ rest d' [Prompt "Enter a direction (N/S/W/E): "]) by reflexivity.
  now rewrite Hd.
Qed.

Lemma unknown_line_reads_nothing (db : database) (c : string) (stdin : list string) :
  q_line_ids db (title c) = [] ->
  list_stops_by_line_and_direction db c stdin
  = Ok tt stdin [Print (Text "**No such line...")].
Proof. intros H. unfold list_stops_by_line_and_direction. now rewrite H. Qed.

(** X16: for command 4 the colour is taken up to blanks around it and the
    case of its letters, and the direction up to the case of its letters: two
    colour answers with the same letters after stripping give the same result,
    the second title-casing inside the command changes nothing, two direction
    answers with the same upper-case form give the same output, and the same
    result when the line exists (when it does not, the direction is not read
    and stays in the input). *)
Theorem colour_and_direction_spelling (L : pylib) (db : database)
    (colour colour' direction direction' : string) (rest : list string)
    (Hc : lower (strip colour) = lower (strip colour'))
    (Hd : upper direction = upper direction') :
  (forall stdin,
     command_round L db ("4" :: colour :: stdin)
     = command_round L db ("4" :: colour' :: stdin))
  /\ (forall stdin,
        list_stops_by_line_and_direction db (title (strip colour)) stdin
        = list_stops_by_line_and_direction db (strip colour) stdin)
  /\ events (command_round L db ("4" :: colour :: direction :: rest))
     = events (command_round L db ("4" :: colour' :: direction' :: rest))
  /\ ((exists l, In l (Lines db) /\ lower (Color l) = lower (strip colour)
                 /\ title (Color l) = Color l) ->
      command_round L db ("4" :: colour :: direction :: rest)
      = command_round L db ("4" :: colour' :: direction' :: rest))
  /\ ((forall l, In l (Lines db) -> Color l <> title (strip colour)) ->
      command_round L db ("4" :: colour :: direction :: rest)
      = Ok Continue (direction :: rest)
          [Prompt (String LF "Please enter a command (1-9, x to exit): ");
           Prompt (String LF "Enter a line color (e.g. Red or Yellow): ");
           Print (Text "**No such line...")]).
Proof.
  assert (Ht : title (strip colour) = title (strip colour'))
    by now apply title_same_letters.
  assert (Hsame : forall stdin,
            command_round L db ("4" :: colour :: stdin)
            = command_round L db ("4" :: colour' :: stdin)).
  { intros stdin. now rewrite !command_4_run, Ht. }
  assert (Hdir : q_line_ids db (title (title (strip colour))) <> [] ->
            command_round L db ("4" :: colour :: direction :: rest)
            = command_round L db ("4" :: colour' :: direction' :: rest)).
  { intros Hline. rewrite <- Hsame, !command_4_run. unfold bind.
    now rewrite (upper_same_direction db _ direction direction' rest Hd Hline). }
  split; [exact Hsame|]. split; [|split; [|split]].
  - intros stdin. unfold list_stops_by_line_and_direction. now rewrite title_title.
  - destruct (q_line_ids db (title (title (strip colour)))) as [|id ids] eqn:E.
    + rewrite <- Hsame, !command_4_run. unfold bind.
      now rewrite !(unknown_line_reads_nothing db _ _ E).
    + rewrite Hdir; [reflexivity|discriminate].
  - intros (l & Hl & Hlow & Htitle). apply Hdir. rewrite title_title.
    intros Hnil. apply (proj1 (line_ids_nil db _) Hnil l Hl).
    rewrite <- Htitle. now apply title_same_letters.
  - intros Hnone. rewrite command_4_run. unfold bind.
    rewrite (unknown_line_reads_nothing db _ (direction :: rest)); [reflexivity|].
    rewrite title_title. now apply line_ids_nil.
Qed.

Lemma colour_and_direction_spelling_point_db :
  (lower (strip "  oRANGE ") = lower (strip "Orange") /\ upper "n" = upper "N")
  /\ forall L,
       command_round L point_db ["4"; "  oRANGE "; "n"]
       = command_round L point_db ["4"; "Orange"; "N"]
       /\ command_round L point_db ["4"; "Orange"; "N"]
          = Ok Continue []
              [Prompt (String LF "Please enter a command (1-9, x to exit): ");
               Prompt (String LF "Enter a line color (e.g. Red or Yellow): ");
               Prompt "Enter a direction (N/S/W/E): ";
               Print (StopLine "Halsted (Loop-bound)" "N" "(handicap accessible)")].
Proof.
  split; [split; reflexivity|]. intros L. split; [|reflexivity].
  apply (proj1 (proj2 (proj2 (proj2
           (colour_and_direction_spelling L point_db "  oRANGE " "Orange" "n" "N" []
              eq_refl eq_refl))))).
  eexists. split; [now left|]. split; reflexivity.
Defined.
